(** * arb_deploy.py: a shallow embedding of the deployment script

    The script [scripts/arb_deploy.py] discovers the validator state
    directories of a rollup, renders [docker-compose.yml] from the per-node
    [config.json] files, halts any previous deployment, builds the image and
    brings the deployment up.  Strings are [String.string]; Python's
    [str.replace] and [%] formatting are written out below; the file system,
    the container runtime and the external build step are parts of an
    explicit [World] threaded through a state-and-exception monad. *)

From Stdlib Require Import String Ascii List ZArith Lia Bool.
From Stdlib Require Import Numbers.DecimalString FunInd Recdef.
From Stdlib Require Numbers.DecimalZ.
Import ListNotations.
Open Scope string_scope.

(* ------------------------------------------------------------------ *)
(** ** Python string primitives *)

(** [str(n)] for a non-negative Python int. *)
Definition str_nat (n : nat) : string :=
  NilEmpty.string_of_uint (Nat.to_uint n).

(** [str(z)] for a Python int. *)
Definition str_int (z : Z) : string :=
  NilEmpty.string_of_int (Z.to_int z).

(** [s.startswith(p)] on character lists. *)
Fixpoint prefixb (p s : list ascii) : bool :=
  match p, s with
  | [], _ => true
  | a :: p', b :: s' => Ascii.eqb a b && prefixb p' s'
  | _ :: _, [] => false
  end.

(** [str.replace] with a non-empty [old = o :: os]: scan left to right,
    replace each non-overlapping occurrence and resume after it. *)
Function replace_ne (o : ascii) (os nw : list ascii) (s : list ascii)
  {measure length s} : list ascii :=
  match s with
  | [] => []
  | c :: t =>
      if prefixb (o :: os) (c :: t)
      then (nw ++ replace_ne o os nw (skipn (length os) t))%list
      else c :: replace_ne o os nw t
  end.
Proof.
  - intros; simpl. rewrite length_skipn. lia.
  - intros; simpl. lia.
Defined.

(** [str.replace] with an empty [old]: [new] is inserted before every
    character and at the end. *)
Fixpoint replace_empty (nw s : list ascii) : list ascii :=
  match s with
  | [] => nw
  | c :: t => (nw ++ c :: replace_empty nw t)%list
  end.

Definition replace_list (old nw s : list ascii) : list ascii :=
  match old with
  | [] => replace_empty nw s
  | o :: os => replace_ne o os nw s
  end.

(** Python's [s.replace(old, new)]. *)
Definition py_replace (s old nw : string) : string :=
  string_of_list_ascii
    (replace_list (list_ascii_of_string old) (list_ascii_of_string nw)
       (list_ascii_of_string s)).

(** Arguments of Python's [%] operator. *)
Inductive farg : Type :=
| AStr (s : string)
| AInt (z : Z).

Definition farg_str (a : farg) : string :=
  match a with
  | AStr s => s
  | AInt z => str_int z
  end.

(** [fmt % args] with the conversions the script uses: [%s], [%d] and
    [%%].  [None] is the [TypeError]/[ValueError] Python raises for too few
    or too many arguments, a non-int for [%d] or an unknown conversion. *)
Fixpoint py_format (fmt : string) (args : list farg) : option string :=
  match fmt with
  | EmptyString =>
      match args with [] => Some EmptyString | _ :: _ => None end
  | String c rest =>
      if Ascii.eqb c "%"%char then
        match rest with
        | EmptyString => None
        | String k rest' =>
            if Ascii.eqb k "%"%char then
              option_map (String "%"%char) (py_format rest' args)
            else if Ascii.eqb k "s"%char then
              match args with
              | a :: args' =>
                  option_map (fun r => farg_str a ++ r) (py_format rest' args')
              | [] => None
              end
            else if Ascii.eqb k "d"%char then
              match args with
              | AInt z :: args' =>
                  option_map (fun r => str_int z ++ r) (py_format rest' args')
              | _ => None
              end
            else None
        end
      else option_map (String c) (py_format rest args)
  end.

(* ------------------------------------------------------------------ *)
(** ** JSON configuration values *)

(** The values [json.load] produces, as far as the script inspects them;
    [JRaw r] stands for an array or object whose [str()] is [r]. *)
Inductive jvalue : Type :=
| JStr (s : string)
| JInt (z : Z)
| JBool (b : bool)
| JNull
| JRaw (r : string).

(** Python's [str(v)], used by [%s]. *)
Definition py_str (v : jvalue) : string :=
  match v with
  | JStr s => s
  | JInt z => str_int z
  | JBool true => "True"
  | JBool false => "False"
  | JNull => "None"
  | JRaw r => r
  end.

(** The dict [json.load] returns for a [config.json] object (distinct keys). *)
Definition jobj := list (string * jvalue).

Fixpoint jlookup (k : string) (d : jobj) : option jvalue :=
  match d with
  | [] => None
  | (k', v) :: d' => if String.eqb k k' then Some v else jlookup k d'
  end.

(** [k in d]. *)
Definition jhas (k : string) (d : jobj) : bool :=
  match jlookup k d with Some _ => true | None => false end.

(* ------------------------------------------------------------------ *)
(** ** Outcomes, the world and the script monad *)

Inductive exn : Type :=
| KeyError (k : string)
| TypeError
| AttributeError
| FileNotFoundError (path : string)
| JSONDecodeError
| NameError (name : string)
| Exception (msg : string).

(** How a Python computation ends: a value, an exception, [exit(code)]
    ([SystemExit]), or a loop that has not stopped within its fuel. *)
Inductive outcome (A : Type) : Type :=
| Ok (a : A)
| Raise (e : exn)
| Exit (code : Z)
| Diverge.
Arguments Ok {A} a.
Arguments Raise {A} e.
Arguments Exit {A} code.
Arguments Diverge {A}.

(** Observable effects, in the order they happen. *)
Inductive event : Type :=
| ERun (cmd : string) (sudo capture_stdout quiet : bool)
| EBuild (sudo : bool)
| EWrite (path contents : string)
| EOutput (line : string).

Record World : Type := mkWorld {
  w_cwd : string;                          (* working directory *)
  w_dirs : list string;                    (* existing directories *)
  w_files : list (string * option jobj);   (* config files; [None]: not JSON *)
  w_manifest : option string;              (* ./docker-compose.yml *)
  w_stdout : string -> string;             (* captured output of a command *)
  w_build_status : Z;                      (* status of the image build *)
  w_log : list event
}.

Definition M (A : Type) : Type := World -> outcome A * World.

Definition ret {A} (a : A) : M A := fun w => (Ok a, w).

Definition bind {A B} (m : M A) (k : A -> M B) : M B :=
  fun w =>
    match m w with
    | (Ok a, w') => k a w'
    | (Raise e, w') => (Raise e, w')
    | (Exit c, w') => (Exit c, w')
    | (Diverge, w') => (Diverge, w')
    end.

Notation "x <- m ;; k" := (bind m (fun x => k))
  (at level 61, m at next level, right associativity).
Notation "m ;;; k" := (bind m (fun _ => k))
  (at level 61, right associativity).

Definition raise {A} (e : exn) : M A := fun w => (Raise e, w).
Definition py_exit {A} (code : Z) : M A := fun w => (Exit code, w).
Definition get : M World := fun w => (Ok w, w).

Definition emit (e : event) : M unit :=
  fun w => (Ok tt,
    mkWorld (w_cwd w) (w_dirs w) (w_files w) (w_manifest w) (w_stdout w)
            (w_build_status w) (w_log w ++ [e])).

(** A pure computation that may raise, run inside [M]. *)
Definition lift {A} (o : outcome A) : M A := fun w => (o, w).

(** [fmt % args] inside the script: a formatting error raises. *)
Definition fmt (f : string) (args : list farg) : M string :=
  match py_format f args with
  | Some s => ret s
  | None => raise TypeError
  end.

(** Modelled from the spec: [support.run.run], the Runtime Shell Adapter,
    is not part of this source; it executes the command (under [sudo] when
    asked) and returns its captured standard output. *)
Definition run (cmd : string) (sudo capture_stdout quiet : bool) : M string :=
  emit (ERun cmd sudo capture_stdout quiet) ;;;
  w <- get ;;
  ret (if capture_stdout then w_stdout w cmd else "").

(** Modelled from the spec: [build_validator_docker.build_validator], the
    external image-build step, is not part of this source; it reports a
    status, zero on success. *)
Definition build_validator (sudo : bool) : M Z :=
  emit (EBuild sudo) ;;;
  w <- get ;;
  ret (w_build_status w).

(** [p] names a directory or a file of [w]. *)
Definition exists_in (w : World) (p : string) : bool :=
  existsb (String.eqb p) (w_dirs w)
  || existsb (fun f => String.eqb p (fst f)) (w_files w).

(** [os.path.exists(p)]. *)
Definition path_exists (p : string) : M bool :=
  w <- get ;;
  ret (exists_in w p).

(** [json.load(open(p))]. *)
Definition load_json (p : string) : M jobj :=
  w <- get ;;
  match find (fun f => String.eqb p (fst f)) (w_files w) with
  | None => raise (FileNotFoundError p)
  | Some (_, None) => raise JSONDecodeError
  | Some (_, Some d) => ret d
  end.

(** [open(compose, "w").write(contents)]: the manifest is overwritten. *)
Definition write_manifest (path contents : string) : M unit :=
  fun w => (Ok tt,
    mkWorld (w_cwd w) (w_dirs w) (w_files w) (Some contents) (w_stdout w)
            (w_build_status w) (w_log w ++ [EWrite path contents])).

(* ------------------------------------------------------------------ *)
(** ** docker-compose templates *)

Definition DOCKER_COMPOSE_FILENAME : string := "docker-compose.yml".

(** Parameters: state folder, extra flags, eth url, rollup address. *)
Definition COMPOSE_HEADER : string :=
"# Machine generated by `arb-deploy`. Do not version control.
version: '3'
networks:
    default:
        external:
            name: arb-network
services:
    arb-tx-aggregator:
        volumes:
            - %s:/home/user/state
        image: arb-validator
        entrypoint: '/home/user/go/bin/arb-tx-aggregator'
        command: %s state %s %s
        ports:
            - '1235:1235'
            - '8547:8547'
".

Definition compose_header (state_abspath extra_flags ws_port : string)
    (rollup_address : jvalue) : option string :=
  py_format COMPOSE_HEADER
    [AStr state_abspath; AStr extra_flags; AStr ws_port;
     AStr (py_str rollup_address)].

(** Parameters: validator id, state folder, extra flags, eth url, rollup
    address. *)
Definition COMPOSE_VALIDATOR : string :=
"
    arb-validator%d:
        volumes:
            - %s:/home/user/state
        image: arb-validator
        command: validate %s state %s %s
".

Definition compose_validator (validator_id : nat)
    (state_abspath extra_flags ws_port : string) (rollup_address : jvalue)
    : option string :=
  py_format COMPOSE_VALIDATOR
    [AInt (Z.of_nat validator_id); AStr state_abspath; AStr extra_flags;
     AStr ws_port; AStr (py_str rollup_address)].

(* ------------------------------------------------------------------ *)
(** ** deploy *)

(** [os.path.abspath(os.path.join("rollups", rollup, "validator%s"))] for a
    rollup given as a plain relative directory name (not absolute, not
    empty, no [.], [..] or trailing [/]) and a working directory other than
    [/]: there [os.path.join] and [abspath] reduce to concatenation.  The
    statements below use this path only through [%] formatting. *)
Definition states_path (cwd rollup : string) : string :=
  cwd ++ "/rollups/" ++ rollup ++ "/validator%s".

(** [os.path.join(d, "config.json")]. *)
Definition config_path (d : string) : string := d ++ "/config.json".

(** [os.path.abspath("./" + DOCKER_COMPOSE_FILENAME)]. *)
Definition compose_path (cwd : string) : string :=
  cwd ++ "/" ++ DOCKER_COMPOSE_FILENAME.

(** The [while True] loop counting validator directories from
    [n_validators = 1]; [fuel] bounds the iterations. *)
Fixpoint discover (fuel : nat) (sp : string) (n_validators : nat) : M nat :=
  match fuel with
  | O => fun w => (Diverge, w)
  | S fuel' =>
      p <- fmt sp [AInt (Z.of_nat n_validators)] ;;
      b <- path_exists p ;;
      if b then discover fuel' sp (S n_validators) else ret n_validators
  end.

(** The loop stops within one probe per entry of the file system. *)
Definition discover_fuel (w : World) : nat :=
  S (length (w_dirs w) + length (w_files w)).

(** Python truthiness of the [password] argument ([None] or a string). *)
Definition truthy (password : option string) : bool :=
  match password with
  | None => false
  | Some s => negb (String.eqb s "")
  end.

Definition PASSWORD_MSG : string :=
  "arb_deploy requires validator password through [--password=pass] parameter or in config.json file".

(** Variables of [deploy] that live across iterations of the node loop;
    [it_rollup_address] is [None] while still unbound. *)
Record Iter : Type := mkIter {
  it_contents : string;
  it_rollup_address : option jvalue;
  it_extra_flags : string;
  it_eth_url : string
}.

Definition it_init : Iter := mkIter "" None "" "".

Definition ob {A B} (o : outcome A) (k : A -> outcome B) : outcome B :=
  match o with
  | Ok a => k a
  | Raise e => Raise e
  | Exit c => Exit c
  | Diverge => Diverge
  end.

Definition okey (k : string) (d : jobj) : outcome jvalue :=
  match jlookup k d with Some v => Ok v | None => Raise (KeyError k) end.

Definition ofmt (o : option string) : outcome string :=
  match o with Some s => Ok s | None => Raise TypeError end.

(** Lines 122-129: the password flag appended to [extra_flags]. *)
Definition resolve_password (password : option string) (data : jobj)
    (extra_flags : string) : outcome string :=
  if negb (truthy password) && jhas "password" data then
    ob (okey "password" data) (fun p =>
      match p with
      | JStr ps => Ok (extra_flags ++ " -password=" ++ ps)
      | _ => Raise TypeError
      end)
  else if truthy password then
    Ok (extra_flags ++ " -password=" ++
        match password with Some s => s | None => "" end)
  else Raise (Exception PASSWORD_MSG).

(** Body of [for i in range(0, n_validators)] once [data] is loaded:
    lines 114-139. *)
Definition node_body (password : option string) (sp : string) (i : nat)
    (data : jobj) (it : Iter) : outcome Iter :=
  ob (okey "rollup_address" data) (fun rollup_address =>
  let extra_flags := "" in
  ob (okey "eth_url" data) (fun u =>
  ob (match u with JStr s => Ok s | _ => Raise AttributeError end) (fun us =>
  let eth_url :=
    py_replace (py_replace us "localhost" "arb-bridge-eth-geth")
      "localhost" "arb-bridge-eth-geth" in
  ob (resolve_password password data extra_flags) (fun extra_flags =>
  if Nat.eqb i 0 then
    ob (ofmt (py_format sp [AInt 0])) (fun p0 =>
    ob (ofmt (compose_header p0 extra_flags eth_url rollup_address))
      (fun contents =>
    Ok (mkIter contents (Some rollup_address) extra_flags eth_url)))
  else
    ob (match jlookup "blocktime" data with
        | Some bt =>
            ob (ofmt (py_format " -blocktime=%s" [AStr (py_str bt)]))
              (fun s => Ok (extra_flags ++ s))
        | None => Ok extra_flags
        end) (fun extra_flags =>
    ob (ofmt (py_format sp [AInt (Z.of_nat i)])) (fun pi =>
    ob (ofmt (compose_validator i pi extra_flags eth_url rollup_address))
      (fun block =>
    Ok (mkIter (it_contents it ++ block) (Some rollup_address) extra_flags
               eth_url)))))))).

(** The node loop: open and parse each node's [config.json], then run the
    body. *)
Fixpoint deploy_nodes (password : option string) (sp : string)
    (idxs : list nat) (it : Iter) : M Iter :=
  match idxs with
  | [] => ret it
  | i :: idxs' =>
      p <- fmt sp [AInt (Z.of_nat i)] ;;
      data <- load_json (config_path p) ;;
      it' <- lift (node_body password sp i data it) ;;
      deploy_nodes password sp idxs' it'
  end.

Definition PS : string := "grep -e 'arb-validator' | awk '{ print $1 }'".

Definition halt_docker (sudo_flag : bool) : M unit :=
  w <- get ;;
  (match w_manifest w with
   | Some _ =>
       run ("docker-compose -f ./" ++ DOCKER_COMPOSE_FILENAME ++ " down -t 0")
         sudo_flag true false ;;; ret tt
   | None => ret tt
   end) ;;;
  out <- run ("docker ps | " ++ PS) sudo_flag true true ;;
  if String.eqb out "" then ret tt
  else
    run ("docker kill $(" ++ (if sudo_flag then "sudo " else "")
         ++ "docker ps | " ++ PS ++ ")") sudo_flag true false ;;;
    run ("docker rm $(" ++ (if sudo_flag then "sudo " else "")
         ++ "docker ps -a | " ++ PS ++ ")") sudo_flag true false ;;;
    ret tt.

Definition deploy (sudo_flag build_flag up_flag : bool) (rollup : string)
    (password : option string) : M unit :=
  halt_docker sudo_flag ;;;
  w <- get ;;
  let sp := states_path (w_cwd w) rollup in
  n_validators <- discover (discover_fuel w) sp 1 ;;
  let compose := compose_path (w_cwd w) in
  it <- deploy_nodes password sp (seq 0 n_validators) it_init ;;
  write_manifest compose (it_contents it) ;;;
  (if negb up_flag || build_flag then
     st <- build_validator sudo_flag ;;
     if Z.eqb st 0 then ret tt else py_exit 1
   else ret tt) ;;;
  (if negb build_flag || up_flag then
     match it_rollup_address it with
     | None => raise (NameError "rollup_address")
     | Some ra =>
         emit (EOutput ("Deploying " ++ str_nat n_validators
                        ++ " validators for rollup " ++ py_str ra)) ;;;
         c <- fmt "docker-compose -f %s up" [AStr compose] ;;
         run c sudo_flag false false ;;; ret tt
     end
   else ret tt).

(* ------------------------------------------------------------------ *)
(** ** Command line *)

(** The command line as argparse sees it: the positional [rollup] (if
    given), [-p/--password], [-s/--sudo], [--build], [--up]. *)
Record Argv : Type := mkArgv {
  av_rollup : option string;
  av_password : option string;
  av_sudo : bool;
  av_build : bool;
  av_up : bool
}.

Record Args : Type := mkArgs {
  args_rollup : string;
  args_password : option string;
  args_sudo : bool;
  args_build : bool;
  args_up : bool
}.

(** [parser.parse_args()]: argparse reports a usage error on standard error
    and exits with status 2 when both members of the mutually exclusive group
    [--build]/[--up] are given (detected while the options are consumed) or
    the positional argument is missing (detected afterwards).  Only the
    error line is logged, not the usage line before it, and the conflict
    line is the one for [--build] given before [--up]. *)
Definition parse_args (a : Argv) : M Args :=
  if av_build a && av_up a then
    emit (EOutput "arb-deploy: error: argument --up: not allowed with argument --build") ;;;
    py_exit 2
  else
    match av_rollup a with
    | None =>
        emit (EOutput "arb-deploy: error: the following arguments are required: rollup") ;;;
        py_exit 2
    | Some r => ret (mkArgs r (av_password a) (av_sudo a) (av_build a) (av_up a))
    end.

Definition main (a : Argv) : M unit :=
  run "./scripts/create-network" false false false ;;;
  args <- parse_args a ;;
  deploy (args_sudo args) (args_build args) (args_up args) (args_rollup args)
    (args_password args).

(** The process exit status: an uncaught exception exits with 1,
    [exit(c)] with [c]; [None] while the run has not terminated. *)
Definition exit_status {A} (o : outcome A) : option Z :=
  match o with
  | Ok _ => Some 0%Z
  | Raise _ => Some 1%Z
  | Exit c => Some c
  | Diverge => None
  end.

(* ------------------------------------------------------------------ *)
(** ** Sample worlds *)

Definition SP : string := states_path "/w" "r".

Definition vdir (i : nat) : string := "/w/rollups/r/validator" ++ str_nat i.

Definition cfg_full (pw : string) : jobj :=
  [("rollup_address", JStr "0xabc"); ("eth_url", JStr "ws://localhost:1234");
   ("password", JStr pw); ("blocktime", JInt 5)].

(** A world with the given validator directories, each holding [cfg]. *)
Definition world_with (idx : list nat) (cfg : jobj) (bs : Z) : World :=
  mkWorld "/w" (map vdir idx)
    (map (fun i => (config_path (vdir i), Some cfg)) idx)
    None (fun _ => "") bs [].

(** Validator directories 0, 1, 2 and a stray 4, all with password "p". *)
Definition W_gap : World := world_with [0; 1; 2; 4] (cfg_full "p") 0.

(** The loop variables after the node loop over [W_gap]. *)
Definition iter_gap : Iter :=
  match fst (deploy_nodes None SP (seq 0 3) it_init W_gap) with
  | Ok it => it
  | _ => it_init
  end.

(** Directories 1 and 2 only: validator0 is missing. *)
Definition W_no0 : World := world_with [1; 2] (cfg_full "p") 0.

(** No validator directory at all. *)
Definition W_none : World := world_with [] (cfg_full "p") 0.

(** One node whose config.json is the empty object. *)
Definition W_emptycfg : World := world_with [0] [] 0.

(** One well-formed node; the image build reports status 2. *)
Definition W_build2 : World := world_with [0] (cfg_full "p") 2.

(** A config.json with every field but [password]. *)
Definition cfg_nopw : jobj :=
  [("rollup_address", JStr "0xabc"); ("eth_url", JStr "ws://localhost:1234");
   ("blocktime", JInt 5)].

(** Validator directories 0 and 1, neither config holding a password. *)
Definition W_nopw : World := world_with [0; 1] cfg_nopw 0.

(** The command line [arb-deploy r --build --up]. *)
Definition argv_both : Argv := mkArgv (Some "r") None false true true.

(* ------------------------------------------------------------------ *)
(** ** Readings of the script's output used in the statements *)

(** [COMPOSE_HEADER] with its four [%s] holes filled. *)
Definition header_text (p f u a : string) : string :=
"# Machine generated by `arb-deploy`. Do not version control.
version: '3'
networks:
    default:
        external:
            name: arb-network
services:
    arb-tx-aggregator:
        volumes:
            - " ++ p ++ ":/home/user/state
        image: arb-validator
        entrypoint: '/home/user/go/bin/arb-tx-aggregator'
        command: " ++ f ++ " state " ++ u ++ " " ++ a ++ "
        ports:
            - '1235:1235'
            - '8547:8547'
".

(** The docker-compose service name of validator [i]. *)
Definition validator_service (i : nat) : string :=
  "arb-validator" ++ str_int (Z.of_nat i).

(** [COMPOSE_VALIDATOR] with its holes filled. *)
Definition validator_text (i : nat) (p f u a : string) : string :=
"
    " ++ validator_service i ++ ":
        volumes:
            - " ++ p ++ ":/home/user/state
        image: arb-validator
        command: validate " ++ f ++ " state " ++ u ++ " " ++ a ++ "
".

(** The block node [i] contributes to the manifest. *)
Definition node_text (i : nat) (p f u : string) (ra : jvalue) : string :=
  if Nat.eqb i 0 then header_text p f u (py_str ra)
  else validator_text i p f u (py_str ra).

(** The [-blocktime] flag the loop appends for node [i]. *)
Definition blocktime_flag (i : nat) (data : jobj) : string :=
  if Nat.eqb i 0 then ""
  else match jlookup "blocktime" data with
       | Some bt => " -blocktime=" ++ py_str bt
       | None => ""
       end.

(** The endpoint the loop derives from [eth_url]. *)
Definition rewrite_eth_url (us : string) : string :=
  py_replace (py_replace us "localhost" "arb-bridge-eth-geth")
    "localhost" "arb-bridge-eth-geth".

(** What the loop body renders for node [i] from an empty accumulator. *)
Definition node_block (password : option string) (sp : string) (i : nat)
    (data : jobj) : outcome string :=
  ob (node_body password sp i data it_init) (fun r => Ok (it_contents r)).

(** The parsed [config.json] at [p], if there is one. *)
Definition read_config (w : World) (p : string) : option jobj :=
  match find (fun f => String.eqb p (fst f)) (w_files w) with
  | Some (_, Some d) => Some d
  | _ => None
  end.

(** [needle in hay] for strings. *)
Fixpoint contains_list (p s : list ascii) : bool :=
  prefixb p s || match s with [] => false | _ :: t => contains_list p t end.

Definition str_contains (needle hay : string) : bool :=
  contains_list (list_ascii_of_string needle) (list_ascii_of_string hay).

(** [w] with [ev] appended to its log. *)
Definition log_ext (w : World) (ev : list event) : World :=
  mkWorld (w_cwd w) (w_dirs w) (w_files w) (w_manifest w) (w_stdout w)
          (w_build_status w) (w_log w ++ ev).

(** A command run by [halt_docker]: all of them capture their output. *)
Definition halt_event (sudo : bool) (e : event) : Prop :=
  exists cmd quiet, e = ERun cmd sudo true quiet.

(** Every [config.json] lives in an existing directory. *)
Definition configs_in_dirs (w : World) : Prop :=
  forall d, existsb (fun f => String.eqb (config_path d) (fst f)) (w_files w) = true ->
  In d (w_dirs w).

(* ------------------------------------------------------------------ *)
(** ** [str.replace] when the replacement cannot create an occurrence *)

(** [s] has no occurrence of [p] at any position. *)
Definition no_occ (p s : list ascii) : Prop :=
  forall k, prefixb p (skipn k s) = false.

Lemma no_occ_cons p c s :
  no_occ p s -> prefixb p (c :: s) = false -> no_occ p (c :: s).
Proof. intros Hs Hc [|k]; [exact Hc | exact (Hs k)]. Qed.

Lemma no_occ_tail p c s : no_occ p (c :: s) -> no_occ p s.
Proof. intros H k. exact (H (S k)). Qed.

Lemma prefixb_refl q : prefixb q q = true.
Proof. induction q as [|a q IH]; simpl; [reflexivity|]. now rewrite Ascii.eqb_refl. Qed.

(** A prefix of [a ++ v] is a prefix of [a] or extends [a]. *)
Lemma prefixb_app_compat q a v :
  prefixb q (a ++ v)%list = true -> prefixb q a = true \/ prefixb a q = true.
Proof.
  revert a. induction q as [|x q IH]; intros a H; [now left|].
  destruct a as [|y a]; [now right|].
  simpl in H. apply andb_prop in H as [Hxy H].
  apply Ascii.eqb_eq in Hxy. subst y.
  destruct (IH a H) as [H'|H']; [left|right]; simpl; now rewrite Ascii.eqb_refl.
Qed.

Section ReplaceNoNew.
Variables (o : ascii) (os nw : list ascii).

(** The replacement text never contains the first character of [old]. *)
Hypothesis Hnw : forallb (fun c => negb (Ascii.eqb o c)) nw = true.

(** No suffix of the tail of [old] overlaps the replacement text. *)
Hypothesis Hos : forall p, p < length os ->
  prefixb (skipn p os) nw = false /\ prefixb nw (skipn p os) = false.

Lemma replace_ne_no_occ_id s :
  no_occ (o :: os) s -> replace_ne o os nw s = s.
Proof.
  functional induction (replace_ne o os nw s); intros H.
  - reflexivity.
  - pose proof (H 0) as H0. simpl skipn in H0. rewrite H0 in e0. discriminate.
  - match goal with IH : no_occ _ t -> _ |- _ => rewrite IH end; [reflexivity|]. exact (no_occ_tail _ _ _ H).
Qed.

Lemma no_occ_app_fresh x u :
  forallb (fun c => negb (Ascii.eqb o c)) x = true ->
  no_occ (o :: os) u -> no_occ (o :: os) (x ++ u)%list.
Proof.
  induction x as [|c x IH]; intros Hx Hu; [exact Hu|].
  simpl in Hx. apply andb_prop in Hx as [Hc Hx].
  apply no_occ_cons; [exact (IH Hx Hu)|].
  simpl. apply negb_true_iff in Hc. now rewrite Hc.
Qed.

(** Whatever prefix of the output [q] avoids overlapping [nw] was
    already a prefix of the input. *)
Lemma prefix_through_replace q t :
  (forall p, p < length q ->
     prefixb (skipn p q) nw = false /\ prefixb nw (skipn p q) = false) ->
  prefixb q (replace_ne o os nw t) = true -> prefixb q t = true.
Proof.
  revert t. induction q as [|x q IH]; intros t Hq H; [reflexivity|].
  rewrite replace_ne_equation in H.
  destruct t as [|c t]; [discriminate|].
  destruct (prefixb (o :: os) (c :: t)) eqn:E.
  - destruct (prefixb_app_compat _ _ _ H) as [H'|H'];
      destruct (Hq 0 ltac:(simpl; lia)) as [H1 H2]; cbn [skipn] in H1, H2; congruence.
  - simpl in H. apply andb_prop in H as [Hxc H].
    simpl. rewrite Hxc. simpl.
    apply IH; [|exact H].
    intros p Hp. apply (Hq (S p)). simpl. lia.
Qed.

Lemma replace_ne_no_occ s : no_occ (o :: os) (replace_ne o os nw s).
Proof.
  functional induction (replace_ne o os nw s).
  - intros [|k]; reflexivity.
  - apply no_occ_app_fresh; assumption.
  - match goal with IH : no_occ _ (replace_ne _ _ _ t) |- _ => apply no_occ_cons; [exact IH|] end.
    simpl in e0 |- *.
    destruct (Ascii.eqb o c) eqn:Ec; [simpl in e0 |- *|reflexivity].
    destruct (prefixb os (replace_ne o os nw t)) eqn:Eo; [|reflexivity].
    rewrite (prefix_through_replace os t Hos Eo) in e0. discriminate.
Qed.

Lemma replace_ne_idempotent s :
  replace_ne o os nw (replace_ne o os nw s) = replace_ne o os nw s.
Proof. apply replace_ne_no_occ_id, replace_ne_no_occ. Qed.
End ReplaceNoNew.

(* ------------------------------------------------------------------ *)
(** ** Templates, the loop body and the loop *)

Lemma append_empty_r (s : string) : s ++ "" = s.
Proof. induction s as [|c s IH]; simpl; [reflexivity|now rewrite IH]. Qed.

Lemma compose_header_text p f u a :
  compose_header p f u a = Some (header_text p f u (py_str a)).
Proof. reflexivity. Qed.

Lemma compose_validator_text i p f u a :
  compose_validator i p f u a = Some (validator_text i p f u (py_str a)).
Proof.
  reflexivity.
Qed.

Lemma blocktime_fmt x :
  py_format " -blocktime=%s" [AStr x] = Some (" -blocktime=" ++ x).
Proof. simpl. now rewrite append_empty_r. Qed.

Lemma node_body_result pw sp i data it ra us path pf :
  jlookup "rollup_address" data = Some ra ->
  jlookup "eth_url" data = Some (JStr us) ->
  py_format sp [AInt (Z.of_nat i)] = Some path ->
  resolve_password pw data "" = Ok pf ->
  node_body pw sp i data it =
    Ok (mkIter ((if Nat.eqb i 0 then "" else it_contents it)
                ++ node_text i path (pf ++ blocktime_flag i data)
                     (rewrite_eth_url us) ra)
               (Some ra) (pf ++ blocktime_flag i data) (rewrite_eth_url us)).
Proof.
  intros Hra Hu Hp Hpw.
  unfold node_body, okey. rewrite Hra, Hu. cbn [ob]. rewrite Hpw. cbn [ob].
  unfold node_text, blocktime_flag, rewrite_eth_url.
  destruct (Nat.eqb_spec i 0) as [->|Hi].
  - cbn [Z.of_nat] in Hp. rewrite Hp. cbn [ofmt ob].
    rewrite compose_header_text. cbn [ofmt ob Nat.eqb].
    now rewrite append_empty_r.
  - destruct i as [|i']; [congruence|]. cbn [Nat.eqb].
    destruct (jlookup "blocktime" data) as [bt|]; cbn [ob].
    + rewrite blocktime_fmt. cbn [ofmt ob]. rewrite Hp. cbn [ofmt ob]. rewrite compose_validator_text.
      cbn [ofmt ob]. reflexivity.
    + rewrite Hp. cbn [ofmt ob]. rewrite compose_validator_text.
      cbn [ofmt ob]. now rewrite append_empty_r.
Qed.

Lemma append_assoc_str (a b c : string) : (a ++ b) ++ c = a ++ (b ++ c).
Proof. induction a as [|x a IH]; simpl; [reflexivity|now rewrite IH]. Qed.

(** The accumulator only enters the body as the prefix of [contents]. *)
Lemma node_body_acc pw sp i data it :
  node_body pw sp i data it =
  ob (node_body pw sp i data it_init) (fun r =>
    Ok (mkIter ((if Nat.eqb i 0 then "" else it_contents it) ++ it_contents r)
               (it_rollup_address r) (it_extra_flags r) (it_eth_url r))).
Proof.
  unfold node_body.
  repeat match goal with
  | |- ob ?o _ = ob (ob ?o _) _ => destruct o; cbn [ob]; try reflexivity
  | |- (if Nat.eqb i 0 then _ else _) = ob (if Nat.eqb i 0 then _ else _) _ =>
      destruct (Nat.eqb i 0)
  end.
Qed.

Lemma load_json_read w p d w' :
  load_json p w = (Ok d, w') -> w' = w /\ read_config w p = Some d.
Proof.
  unfold load_json, read_config, bind, get, ret, raise. cbn.
  destruct (find _ (w_files w)) as [[q [d'|]]|]; intros H; inversion H; auto.
Qed.

Lemma fmt_ok f args w s w' :
  fmt f args w = (Ok s, w') -> w' = w /\ py_format f args = Some s.
Proof.
  unfold fmt, ret, raise. destruct (py_format f args); intros H; inversion H; auto.
Qed.

Lemma fmt_world f args w o w' : fmt f args w = (o, w') -> w' = w.
Proof.
  unfold fmt, ret, raise. destruct (py_format f args); intros H; now inversion H.
Qed.

Lemma load_json_world p w o w' : load_json p w = (o, w') -> w' = w.
Proof.
  unfold load_json, bind, get, ret, raise. cbn.
  destruct (find _ (w_files w)) as [[q [d'|]]|]; intros H; now inversion H.
Qed.

(** One step of the node loop, taken apart. *)
Lemma deploy_nodes_cons_ok pw sp i idxs it w it' w' :
  deploy_nodes pw sp (i :: idxs) it w = (Ok it', w') ->
  exists path data it1,
    py_format sp [AInt (Z.of_nat i)] = Some path /\
    read_config w (config_path path) = Some data /\
    node_body pw sp i data it = Ok it1 /\
    deploy_nodes pw sp idxs it1 w = (Ok it', w').
Proof.
  cbn [deploy_nodes]. unfold bind at 1.
  destruct (fmt sp [AInt (Z.of_nat i)] w) as [[path| | |] w1] eqn:E1;
    intros H; try discriminate.
  apply fmt_ok in E1 as [-> E1].
  unfold bind at 1 in H.
  destruct (load_json (config_path path) w) as [[data| | |] w2] eqn:E2;
    try discriminate.
  apply load_json_read in E2 as [-> E2].
  unfold bind at 1, lift in H.
  destruct (node_body pw sp i data it) as [it1| | |] eqn:E3; try discriminate.
  exists path, data, it1. auto.
Qed.

(** The loop reads the file system and changes nothing. *)
Lemma deploy_nodes_world pw sp idxs it w o w' :
  deploy_nodes pw sp idxs it w = (o, w') -> w' = w.
Proof.
  revert it. induction idxs as [|i idxs IH]; intros it H.
  - cbn in H. now inversion H.
  - cbn [deploy_nodes] in H. unfold bind at 1 in H.
    destruct (fmt sp [AInt (Z.of_nat i)] w) as [o1 w1] eqn:E1.
    apply fmt_world in E1. subst w1.
    destruct o1 as [path| | |]; try (inversion H; reflexivity).
    unfold bind at 1 in H.
    destruct (load_json (config_path path) w) as [o2 w2] eqn:E2.
    apply load_json_world in E2. subst w2.
    destruct o2 as [data| | |]; try (inversion H; reflexivity).
    unfold bind at 1, lift in H.
    destruct (node_body pw sp i data it); try (inversion H; reflexivity).
    exact (IH _ H).
Qed.

(** After the first node the loop appends one block per node. *)
Lemma deploy_nodes_blocks pw sp idxs it w it' w' :
  Forall (fun i => i <> 0) idxs ->
  deploy_nodes pw sp idxs it w = (Ok it', w') ->
  exists blocks,
    Forall2 (fun i b => exists path data,
               py_format sp [AInt (Z.of_nat i)] = Some path /\
               read_config w (config_path path) = Some data /\
               node_block pw sp i data = Ok b) idxs blocks /\
    it_contents it' = it_contents it ++ fold_right String.append "" blocks.
Proof.
  revert it. induction idxs as [|i idxs IH]; intros it Hnz H.
  - cbn in H. inversion H; subst. exists []. split; [constructor|].
    cbn. now rewrite append_empty_r.
  - inversion Hnz as [|? ? Hi Hnz']; subst.
    apply deploy_nodes_cons_ok in H as (path & data & it1 & Hp & Hd & Hb & Hr).
    destruct (IH it1 Hnz' Hr) as (blocks & Hf & Hc).
    rewrite node_body_acc in Hb.
    destruct (node_body pw sp i data it_init) as [r| | |] eqn:Er; cbn [ob] in Hb;
      try discriminate.
    inversion Hb; subst it1. clear Hb.
    exists (it_contents r :: blocks). split.
    + constructor; [|exact Hf]. exists path, data.
      unfold node_block. rewrite Er. auto.
    + rewrite Hc. cbn. apply Nat.eqb_neq in Hi. rewrite Hi.
      now rewrite append_assoc_str.
Qed.

Lemma str_nat_service_inj j k : validator_service j = validator_service k -> j = k.
Proof.
  unfold validator_service, str_int. cbn [String.append]. intros H.
  repeat match type of H with String _ _ = String _ _ => injection H as H end.
  apply (f_equal NilEmpty.int_of_string) in H.
  rewrite !NilEmpty.isi in H. injection H as H.
  apply (f_equal Z.of_int) in H. rewrite !DecimalZ.of_to in H. lia.
Qed.

(* ------------------------------------------------------------------ *)
(** ** Discovery *)

Lemma str_length_app (a b : string) : String.length (a ++ b) = String.length a + String.length b.
Proof. induction a as [|c a IH]; cbn; [reflexivity|now rewrite IH]. Qed.

Lemma str_app_cancel_l (pre x y : string) : pre ++ x = pre ++ y -> x = y.
Proof. induction pre as [|c pre IH]; cbn; [auto|intros H; injection H; auto]. Qed.

Lemma str_app_cancel_r (x y post : string) : x ++ post = y ++ post -> x = y.
Proof.
  intros H. assert (Hl : String.length x = String.length y).
  { apply (f_equal String.length) in H. rewrite !str_length_app in H. lia. }
  revert y H Hl. induction x as [|c x IH]; intros [|c' y] H Hl; cbn in *;
    try discriminate; try reflexivity.
  injection H as -> H. f_equal. apply IH; [exact H|lia].
Qed.

Lemma str_int_nat_inj j k : str_int (Z.of_nat j) = str_int (Z.of_nat k) -> j = k.
Proof.
  unfold str_int. intros H.
  apply (f_equal NilEmpty.int_of_string) in H.
  rewrite !NilEmpty.isi in H. injection H as H.
  apply (f_equal Z.of_int) in H. rewrite !DecimalZ.of_to in H. lia.
Qed.

(** A format string that accepts one int argument puts it between a fixed
    prefix and a fixed suffix. *)
Lemma py_format_one_int fmt z s :
  py_format fmt [AInt z] = Some s ->
  exists pre post, s = pre ++ str_int z ++ post /\
    forall z', py_format fmt [AInt z'] = Some (pre ++ str_int z' ++ post).
Proof.
  remember (String.length fmt) as len eqn:Hlen.
  revert fmt s Hlen. induction len as [len IH] using lt_wf_ind.
  intros fmt s Hlen H.
  destruct fmt as [|c rest]; [discriminate|].
  cbn [py_format] in H |- *.
  destruct (Ascii.eqb c "%"%char) eqn:Ec.
  - destruct rest as [|k rest']; [discriminate|].
    destruct (Ascii.eqb k "%"%char) eqn:Ek.
    + destruct (py_format rest' [AInt z]) as [r|] eqn:Er; [|discriminate].
      cbn in H. injection H as <-.
      destruct (IH (String.length rest') ltac:(cbn in Hlen; lia) rest' r eq_refl Er)
        as (pre & post & -> & Hall).
      exists (String "%"%char pre), post. split; [reflexivity|].
      intros z'. rewrite Hall. reflexivity.
    + destruct (Ascii.eqb k "s"%char) eqn:Es.
      * destruct (py_format rest' []) as [r|] eqn:Er; [|discriminate].
        cbn in H. injection H as <-.
        exists "", r. split; [reflexivity|]. intros z'. reflexivity.
      * destruct (Ascii.eqb k "d"%char) eqn:Ed; [|discriminate].
        destruct (py_format rest' []) as [r|] eqn:Er; [|discriminate].
        cbn in H. injection H as <-.
        exists "", r. split; [reflexivity|]. intros z'. reflexivity.
  - destruct (py_format rest [AInt z]) as [r|] eqn:Er; [|discriminate].
    cbn in H. injection H as <-.
    destruct (IH (String.length rest) ltac:(cbn in Hlen; lia) rest r eq_refl Er)
      as (pre & post & -> & Hall).
    exists (String c pre), post. split; [reflexivity|].
    intros z'. rewrite Hall. reflexivity.
Qed.

(** What [discover] establishes about the directories it probed. *)
Lemma discover_spec f sp n w :
  snd (discover f sp n w) = w /\
  (fst (discover f sp n w) = Diverge ->
     forall k, n <= k < n + f ->
       exists p, py_format sp [AInt (Z.of_nat k)] = Some p /\ exists_in w p = true) /\
  (forall m, fst (discover f sp n w) = Ok m ->
     n <= m /\
     (forall k, n <= k < m ->
        exists p, py_format sp [AInt (Z.of_nat k)] = Some p /\ exists_in w p = true) /\
     exists p, py_format sp [AInt (Z.of_nat m)] = Some p /\ exists_in w p = false) /\
  (fst (discover f sp n w) = Diverge \/ fst (discover f sp n w) = Raise TypeError \/
   exists m, fst (discover f sp n w) = Ok m).
Proof.
  revert n. induction f as [|f IH]; intros n.
  - cbn. split; [reflexivity|split; [intros _ k Hk; lia|split; [discriminate|auto]]].
  - cbn [discover]. unfold bind at 1, fmt.
    destruct (py_format sp [AInt (Z.of_nat n)]) as [p|] eqn:Ep;
      [|cbn; split; [reflexivity|split; [discriminate|split; [discriminate|auto]]]].
    cbn. destruct (exists_in w p) eqn:Eex.
    + destruct (IH (S n)) as (Hw & Hd & Hok & Hcases).
      split; [exact Hw|split; [|split; [|exact Hcases]]].
      * intros Hdiv k Hk.
        destruct (Nat.eq_dec k n) as [->|Hkn]; [eauto|].
        apply Hd; [exact Hdiv|lia].
      * intros m Hm. destruct (Hok m Hm) as (H1 & H2 & H3).
        split; [lia|split; [|exact H3]].
        intros k Hk. destruct (Nat.eq_dec k n) as [->|Hkn]; [eauto|].
        apply H2. lia.
    + cbn. split; [reflexivity|split; [discriminate|split; [|eauto]]].
      intros m Hm. injection Hm as <-.
      split; [lia|split; [intros k Hk; lia|eauto]].
Qed.

Lemma NoDup_map_inj {A B} (f : A -> B) (l : list A) :
  (forall x y, f x = f y -> x = y) -> NoDup l -> NoDup (map f l).
Proof.
  intros Hf. induction 1 as [|x l Hx Hl IH]; cbn; constructor; auto.
  intros Hin. apply in_map_iff in Hin as (y & Hy & Hyl).
  apply Hf in Hy. subst. contradiction.
Qed.

(** With one probe per file-system entry, discovery always stops. *)
Lemma discover_terminates sp w :
  fst (discover (discover_fuel w) sp 1 w) <> Diverge.
Proof.
  intros Hdiv.
  destruct (discover_spec (discover_fuel w) sp 1 w) as (_ & Hd & _).
  pose proof (Hd Hdiv) as Hall. clear Hd Hdiv.
  destruct (Hall 1 ltac:(unfold discover_fuel; lia)) as (p1 & Hp1 & _).
  destruct (py_format_one_int _ _ _ Hp1) as (pre & post & _ & Hfmt).
  set (F := discover_fuel w).
  set (l := map (fun k => pre ++ str_int (Z.of_nat k) ++ post) (seq 1 F)).
  assert (Hnd : NoDup l).
  { apply NoDup_map_inj; [|apply seq_NoDup].
    intros x y H. apply str_app_cancel_l, str_app_cancel_r in H.
    now apply str_int_nat_inj. }
  assert (Hincl : incl l (w_dirs w ++ map fst (w_files w))).
  { intros q Hq. unfold l in Hq. apply in_map_iff in Hq as (k & <- & Hk).
    apply in_seq in Hk.
    destruct (Hall k ltac:(lia)) as (p & Hp & Hex).
    rewrite Hfmt in Hp. injection Hp as <-.
    unfold exists_in in Hex. apply orb_true_iff in Hex as [Hex|Hex];
      apply existsb_exists in Hex as (x & Hx & Heq);
      apply String.eqb_eq in Heq; apply in_or_app.
    - left. now subst.
    - right. apply in_map_iff. exists x. now subst. }
  pose proof (NoDup_incl_length Hnd Hincl) as Hlen.
  unfold l, F, discover_fuel in Hlen.
  rewrite length_map, length_seq, length_app, length_map in Hlen. lia.
Qed.

(* ------------------------------------------------------------------ *)
(** ** The phases of [deploy] *)

Lemma log_ext_app w ev1 ev2 : log_ext (log_ext w ev1) ev2 = log_ext w (ev1 ++ ev2).
Proof. unfold log_ext. cbn. now rewrite app_assoc. Qed.

Lemma emit_log_ext e w : emit e w = (Ok tt, log_ext w [e]).
Proof. reflexivity. Qed.

Lemma halt_docker_effect sudo w :
  exists ev, Forall (halt_event sudo) ev /\
    halt_docker sudo w = (Ok tt, log_ext w ev).
Proof.
  unfold halt_docker, run, bind, get, ret. cbn [w_manifest].
  destruct (w_manifest w) as [m|]; cbn;
    destruct (String.eqb (w_stdout w _) "") eqn:E; cbn;
    eexists; (split; [|unfold log_ext; cbn; rewrite <- ?app_assoc; reflexivity]);
    repeat constructor; eexists; eexists; reflexivity.
Qed.

Lemma discover_same_fs f sp n w1 w2 :
  w_dirs w1 = w_dirs w2 -> w_files w1 = w_files w2 ->
  fst (discover f sp n w1) = fst (discover f sp n w2).
Proof.
  intros Hd Hf. revert n. induction f as [|f IH]; intros n; [reflexivity|].
  cbn [discover]. unfold bind, fmt, path_exists, get, ret, raise.
  destruct (py_format sp _) as [p|]; [|reflexivity]. cbn.
  unfold exists_in. rewrite Hd, Hf.
  destruct (_ || _); [apply IH|reflexivity].
Qed.

Lemma discover_world f sp n w : snd (discover f sp n w) = w.
Proof. apply discover_spec. Qed.

Lemma deploy_nodes_same_fs pw sp l it w1 w2 :
  w_files w1 = w_files w2 ->
  fst (deploy_nodes pw sp l it w1) = fst (deploy_nodes pw sp l it w2).
Proof.
  intros Hf. revert it. induction l as [|i l IH]; intros it; [reflexivity|].
  cbn [deploy_nodes]. unfold bind, fmt, load_json, get, ret, raise, lift.
  destruct (py_format sp _) as [p|]; [|reflexivity]. cbn. rewrite Hf.
  destruct (find _ (w_files w2)) as [[q [d|]]|]; try reflexivity.
  destruct (node_body pw sp i d it); try reflexivity. apply IH.
Qed.

(** Formatting the state path with index 0 fixes every other index. *)
Lemma states_path_all sp p0 :
  py_format sp [AInt 0] = Some p0 ->
  forall z, exists p, py_format sp [AInt z] = Some p.
Proof.
  intros H z. destruct (py_format_one_int _ _ _ H) as (pre & post & _ & Hall).
  eauto.
Qed.

(** When every index formats, discovery stops with a count. *)
Lemma discover_ok sp w :
  (forall z, exists p, py_format sp [AInt z] = Some p) ->
  exists n, fst (discover (discover_fuel w) sp 1 w) = Ok n.
Proof.
  intros Hall.
  assert (Hnr : forall f n, fst (discover f sp n w) <> Raise TypeError).
  { induction f as [|f IH]; intros n; cbn [discover]; [discriminate|].
    unfold bind, fmt, path_exists, get, ret.
    destruct (Hall (Z.of_nat n)) as (p & Hp). rewrite Hp. cbn.
    destruct (exists_in w p); [apply IH|discriminate]. }
  destruct (discover_spec (discover_fuel w) sp 1 w) as (_ & _ & _ & Hc).
  destruct Hc as [Hc|[Hc|Hc]]; [|exfalso; exact (Hnr _ _ Hc)|exact Hc].
  exfalso. exact (discover_terminates sp w Hc).
Qed.

(** [deploy] up to the node loop: halt, then discovery. *)
Lemma deploy_prefix sudo bld up rollup pw w :
  exists hev, Forall (halt_event sudo) hev /\
  deploy sudo bld up rollup pw w =
  bind (discover (discover_fuel w) (states_path (w_cwd w) rollup) 1)
    (fun n =>
       bind (deploy_nodes pw (states_path (w_cwd w) rollup) (seq 0 n) it_init)
         (fun it =>
            write_manifest (compose_path (w_cwd w)) (it_contents it) ;;;
            (if negb up || bld then
               st <- build_validator sudo ;;
               if Z.eqb st 0 then ret tt else py_exit 1
             else ret tt) ;;;
            (if negb bld || up then
               match it_rollup_address it with
               | None => raise (NameError "rollup_address")
               | Some ra =>
                   emit (EOutput ("Deploying " ++ str_nat n
                                  ++ " validators for rollup " ++ py_str ra)) ;;;
                   c <- fmt "docker-compose -f %s up" [AStr (compose_path (w_cwd w))] ;;
                   run c sudo false false ;;; ret tt
               end
             else ret tt)))
    (log_ext w hev).
Proof.
  destruct (halt_docker_effect sudo w) as (hev & Hf & Hh).
  exists hev. split; [exact Hf|].
  unfold deploy. unfold bind at 1. rewrite Hh. reflexivity.
Qed.

Lemma find_existsb {A} (f : A -> bool) l x :
  find f l = Some x -> existsb f l = true.
Proof.
  intros H. apply find_some in H as [Hin Hf].
  apply existsb_exists. eauto.
Qed.

Lemma bind_ok {A B} (m : M A) (k : A -> M B) w a w' :
  m w = (Ok a, w') -> bind m k w = k a w'.
Proof. unfold bind. intros H. rewrite H. reflexivity. Qed.

Lemma bind_raise {A B} (m : M A) (k : A -> M B) w e w' :
  m w = (Raise e, w') -> bind m k w = (Raise e, w').
Proof. unfold bind. intros H. rewrite H. reflexivity. Qed.

Lemma bind_exit {A B} (m : M A) (k : A -> M B) w c w' :
  m w = (Exit c, w') -> bind m k w = (Exit c, w').
Proof. unfold bind. intros H. rewrite H. reflexivity. Qed.

(** A missing config.json stops the node loop. *)
Lemma load_json_missing p w :
  existsb (fun f => String.eqb p (fst f)) (w_files w) = false ->
  load_json p w = (Raise (FileNotFoundError p), w).
Proof.
  intros H. unfold load_json, bind, get. cbn.
  destruct (find (fun f => String.eqb p (fst f)) (w_files w)) as [x|] eqn:Ef;
    [|reflexivity].
  rewrite (find_existsb _ _ _ Ef) in H. discriminate.
Qed.

Lemma deploy_nodes_load_fail pw sp i idxs it w p e :
  py_format sp [AInt (Z.of_nat i)] = Some p ->
  load_json (config_path p) w = (Raise e, w) ->
  deploy_nodes pw sp (i :: idxs) it w = (Raise e, w).
Proof.
  intros Hp Hl. cbn [deploy_nodes].
  rewrite (bind_ok _ _ w p w). 2:{ unfold fmt. rewrite Hp. reflexivity. }
  apply bind_raise. exact Hl.
Qed.

(** The discovery run inside [deploy], after the teardown. *)
Lemma discover_after_halt sp w hev n :
  fst (discover (discover_fuel w) sp 1 w) = Ok n ->
  discover (discover_fuel w) sp 1 (log_ext w hev) = (Ok n, log_ext w hev).
Proof.
  intros Hn.
  rewrite (surjective_pairing (discover _ sp 1 (log_ext w hev))), discover_world.
  f_equal. rewrite <- Hn. apply discover_same_fs; reflexivity.
Qed.

(** Outcomes of pure code: never an [exit] nor a hang. *)
Definition pure_outcome {A} (o : outcome A) : Prop :=
  match o with Ok _ | Raise _ => True | _ => False end.

Lemma ob_pure {A B} (o : outcome A) (k : A -> outcome B) :
  pure_outcome o -> (forall a, pure_outcome (k a)) -> pure_outcome (ob o k).
Proof. destruct o; cbn; auto. Qed.

Lemma node_body_pure pw sp i data it : pure_outcome (node_body pw sp i data it).
Proof.
  unfold node_body, resolve_password, okey, ofmt.
  repeat first
    [ exact I
    | apply ob_pure; [|intros ?]
    | progress cbn
    | match goal with |- context [match ?x with _ => _ end] => destruct x end ].
Qed.

Lemma resolve_password_absent pw data ef :
  truthy pw = false -> jhas "password" data = false ->
  resolve_password pw data ef = Raise (Exception PASSWORD_MSG).
Proof. intros Ht Hh. unfold resolve_password. rewrite Ht, Hh. reflexivity. Qed.

(** A node without a password, and none on the command line, never
    resolves; with its address and a string eth_url the error is the
    password one. *)
Lemma node_body_absent pw sp i data it :
  truthy pw = false -> jhas "password" data = false ->
  exists e, node_body pw sp i data it = Raise e /\
    (forall ra us, jlookup "rollup_address" data = Some ra ->
       jlookup "eth_url" data = Some (JStr us) -> e = Exception PASSWORD_MSG).
Proof.
  intros Ht Hh. unfold node_body, okey.
  destruct (jlookup "rollup_address" data) as [ra|] eqn:Er; cbn [ob];
    [|eexists; split; [reflexivity|intros; congruence]].
  destruct (jlookup "eth_url" data) as [u|] eqn:Eu; cbn [ob];
    [|eexists; split; [reflexivity|intros; congruence]].
  destruct u; cbn [ob]; try (eexists; split; [reflexivity|intros; congruence]).
  rewrite resolve_password_absent by assumption. cbn [ob].
  eexists; split; reflexivity.
Qed.

Lemma load_json_of_read w p d :
  read_config w p = Some d -> load_json p w = (Ok d, w).
Proof.
  unfold read_config, load_json, bind, get, ret. cbn.
  destruct (find _ (w_files w)) as [[q [d'|]]|]; intros H; inversion H; reflexivity.
Qed.

(** The node loop raises, without touching the world, as soon as it
    reaches a node without a password. *)
Lemma deploy_nodes_absent pw sp l it w j pj data :
  truthy pw = false -> In j l ->
  py_format sp [AInt (Z.of_nat j)] = Some pj ->
  read_config w (config_path pj) = Some data ->
  jhas "password" data = false ->
  exists e, deploy_nodes pw sp l it w = (Raise e, w).
Proof.
  intros Ht Hin Hpj Hrd Hh. revert it.
  induction l as [|i l IH]; intros it; [destruct Hin|].
  cbn [deploy_nodes]. unfold bind at 1, fmt at 1.
  destruct (py_format sp [AInt (Z.of_nat i)]) as [p|] eqn:Ep;
    [|eexists; reflexivity].
  unfold ret at 1. cbv beta iota.
  unfold bind at 1.
  destruct (load_json (config_path p) w) as [o w1] eqn:El.
  pose proof (load_json_world _ _ _ _ El). subst w1.
  destruct o as [d| | |].
  2: eexists; reflexivity.
  2, 3: unfold load_json, bind, get, ret, raise in El; cbn in El;
        destruct (find _ (w_files w)) as [[? [?|]]|]; discriminate El.
  apply load_json_read in El as [_ Ed].
  unfold bind at 1, lift at 1.
  pose proof (node_body_pure pw sp i d it) as Hpure.
  destruct (node_body pw sp i d it) as [it'| | |] eqn:En;
    [|eexists; reflexivity|destruct Hpure|destruct Hpure].
  destruct Hin as [->|Hin]; [|apply IH; exact Hin].
  rewrite Hpj in Ep. injection Ep as <-. rewrite Hrd in Ed. injection Ed as <-.
  destruct (node_body_absent pw sp j data it Ht Hh) as (e & He & _).
  congruence.
Qed.

Lemma deploy_nodes_app pw sp l1 l2 it w :
  deploy_nodes pw sp (l1 ++ l2) it w =
  bind (deploy_nodes pw sp l1 it) (fun it' => deploy_nodes pw sp l2 it') w.
Proof.
  revert it w. induction l1 as [|i l1 IH]; intros it w; [reflexivity|].
  cbn [deploy_nodes app]. unfold bind.
  destruct (fmt sp [AInt (Z.of_nat i)] w) as [[p| | |] w1]; cbv beta iota;
    try reflexivity.
  destruct (load_json (config_path p) w1) as [[d| | |] w2]; cbv beta iota;
    try reflexivity.
  unfold lift.
  destruct (node_body pw sp i d it) as [it'| | |]; cbv beta iota; try reflexivity.
  specialize (IH it' w2). unfold bind in IH. exact IH.
Qed.

(* ------------------------------------------------------------------ *)
(** ** More of the script: teardown, the CLI password, the URL rewrite *)

Lemma contains_list_no_occ p s : contains_list p s = false <-> no_occ p s.
Proof.
  induction s as [|c t IH]; cbn [contains_list].
  - rewrite orb_false_r. split.
    + intros H k. destruct k; exact H.
    + intros H. exact (H 0).
  - rewrite orb_false_iff, IH. split.
    + intros [H1 H2] [|k]; [exact H1|exact (H2 k)].
    + intros H. split; [exact (H 0)|intros k; exact (H (S k))].
Qed.

(** The [old = "localhost"], [new = "arb-bridge-eth-geth"] pair meets the
    hypotheses of [ReplaceNoNew]. *)
Lemma localhost_no_overlap : forall p, p < length (list_ascii_of_string "ocalhost") ->
  prefixb (skipn p (list_ascii_of_string "ocalhost"))
          (list_ascii_of_string "arb-bridge-eth-geth") = false /\
  prefixb (list_ascii_of_string "arb-bridge-eth-geth")
          (skipn p (list_ascii_of_string "ocalhost")) = false.
Proof.
  intros p Hp.
  do 8 (destruct p as [|p]; [split; reflexivity|]).
  cbn in Hp. lia.
Qed.

Lemma localhost_replace_no_occ s :
  no_occ ("l"%char :: list_ascii_of_string "ocalhost")
    (replace_ne "l"%char (list_ascii_of_string "ocalhost")
       (list_ascii_of_string "arb-bridge-eth-geth") s).
Proof. apply replace_ne_no_occ; [reflexivity|exact localhost_no_overlap]. Qed.

Lemma py_replace_localhost s :
  py_replace s "localhost" "arb-bridge-eth-geth" =
  string_of_list_ascii
    (replace_ne "l"%char (list_ascii_of_string "ocalhost")
       (list_ascii_of_string "arb-bridge-eth-geth") (list_ascii_of_string s)).
Proof. reflexivity. Qed.

Lemma resolve_password_empty data ef :
  resolve_password (Some "") data ef = resolve_password None data ef.
Proof. reflexivity. Qed.

Lemma node_body_empty_pw sp i data it :
  node_body (Some "") sp i data it = node_body None sp i data it.
Proof. unfold node_body. rewrite resolve_password_empty. reflexivity. Qed.

Lemma deploy_nodes_empty_pw sp l it w :
  deploy_nodes (Some "") sp l it w = deploy_nodes None sp l it w.
Proof.
  revert it w. induction l as [|i l IH]; intros it w; [reflexivity|].
  cbn [deploy_nodes]. unfold bind.
  destruct (fmt sp [AInt (Z.of_nat i)] w) as [[p| | |] w1]; cbv beta iota;
    try reflexivity.
  destruct (load_json (config_path p) w1) as [[d| | |] w2]; cbv beta iota;
    try reflexivity.
  unfold lift. rewrite node_body_empty_pw.
  destruct (node_body None sp i d it) as [it'| | |]; cbv beta iota; try reflexivity.
  apply IH.
Qed.

(** A successful loop body binds [rollup_address] from the node's config. *)
Lemma node_body_ok_ra pw sp i data it r :
  node_body pw sp i data it = Ok r ->
  exists ra, jlookup "rollup_address" data = Some ra /\ it_rollup_address r = Some ra.
Proof.
  intros H. unfold node_body, resolve_password, ofmt, okey in H.
  destruct (jlookup "rollup_address" data) as [ra|]; cbn [ob] in H; [|discriminate].
  exists ra. split; [reflexivity|].
  repeat match type of H with
         | context [match ?x with _ => _ end] => destruct x; cbn [ob] in H
         end;
    try discriminate; injection H as <-; reflexivity.
Qed.

(** After the loop, [rollup_address] holds the last node's value. *)
Lemma deploy_nodes_last pw sp l j it w it' w' :
  deploy_nodes pw sp (l ++ [j]) it w = (Ok it', w') ->
  exists pj data ra,
    py_format sp [AInt (Z.of_nat j)] = Some pj /\
    read_config w (config_path pj) = Some data /\
    jlookup "rollup_address" data = Some ra /\
    it_rollup_address it' = Some ra.
Proof.
  rewrite deploy_nodes_app. unfold bind at 1.
  destruct (deploy_nodes pw sp l it w) as [o1 w1] eqn:E.
  pose proof (deploy_nodes_world _ _ _ _ _ _ _ E). subst w1.
  destruct o1 as [it1| | |]; intros H; try discriminate H.
  apply deploy_nodes_cons_ok in H as (pj & data & it2 & Hp & Hr & Hb & Hn).
  cbn [deploy_nodes] in Hn. unfold ret in Hn. injection Hn as <- _.
  destruct (node_body_ok_ra _ _ _ _ _ _ Hb) as (ra & Hra & Hit).
  exists pj, data, ra. auto.
Qed.

(** The node loop run after the teardown sees the same files. *)
Lemma deploy_nodes_after_halt pw sp l it w hev :
  deploy_nodes pw sp l it (log_ext w hev) =
  (fst (deploy_nodes pw sp l it w), log_ext w hev).
Proof.
  destruct (deploy_nodes pw sp l it (log_ext w hev)) as [o w'] eqn:E.
  pose proof (deploy_nodes_world _ _ _ _ _ _ _ E). subst w'.
  rewrite <- (deploy_nodes_same_fs pw sp l it (log_ext w hev) w) by reflexivity.
  rewrite E. reflexivity.
Qed.

Lemma bind_ext {A B} (m1 m2 : M A) (k1 k2 : A -> M B) w :
  m1 w = m2 w -> (forall a w', k1 a w' = k2 a w') -> bind m1 k1 w = bind m2 k2 w.
Proof.
  unfold bind. intros H Hk. rewrite H.
  destruct (m2 w) as [[a| | |] w']; auto.
Qed.

(* ------------------------------------------------------------------ *)
(** ** The rendered blocks of the node loop *)

(** The loop's accumulated contents are node 0's block followed by the
    blocks of nodes 1, 2, ..., each rendered from its own config. *)
Lemma deploy_nodes_all_blocks pw sp n w it' w' :
  deploy_nodes pw sp (seq 0 n) it_init w = (Ok it', w') ->
  exists blocks,
    Forall2 (fun i b => exists path data,
               py_format sp [AInt (Z.of_nat i)] = Some path /\
               read_config w (config_path path) = Some data /\
               node_block pw sp i data = Ok b) (seq 0 n) blocks /\
    it_contents it' = fold_right String.append "" blocks.
Proof.
  destruct n as [|n]; intros H.
  - cbn in H. inversion H; subst. exists []. split; [constructor|reflexivity].
  - cbn [seq] in H.
    apply deploy_nodes_cons_ok in H as (path & data & it1 & Hp & Hd & Hb & Hr).
    destruct (deploy_nodes_blocks pw sp (seq 1 n) it1 w it' w') as (bs & Hf & Hc).
    + apply Forall_forall. intros i Hi. apply in_seq in Hi. lia.
    + exact Hr.
    + exists (it_contents it1 :: bs). split.
      * constructor; [|exact Hf]. exists path, data.
        unfold node_block. rewrite Hb. auto.
      * rewrite Hc. reflexivity.
Qed.

(** A block the loop body renders is the template filled with the node's
    own state path, resolved flags, rewritten endpoint and address. *)
Lemma node_block_shape pw sp i data b path :
  py_format sp [AInt (Z.of_nat i)] = Some path ->
  node_block pw sp i data = Ok b ->
  exists ra us pf,
    jlookup "rollup_address" data = Some ra /\
    jlookup "eth_url" data = Some (JStr us) /\
    resolve_password pw data "" = Ok pf /\
    b = node_text i path (pf ++ blocktime_flag i data) (rewrite_eth_url us) ra.
Proof.
  intros Hp H. unfold node_block in H.
  destruct (jlookup "rollup_address" data) as [ra|] eqn:Er;
    [|unfold node_body, okey in H; rewrite Er in H; discriminate H].
  destruct (jlookup "eth_url" data) as [u|] eqn:Eu;
    [|unfold node_body, okey in H; rewrite Er, Eu in H; discriminate H].
  destruct u as [us| | | |];
    try (unfold node_body, okey in H; rewrite Er, Eu in H; discriminate H).
  destruct (resolve_password pw data "") as [pf| | |] eqn:Epw;
    try (unfold node_body, okey in H; rewrite Er, Eu, Epw in H; discriminate H).
  rewrite (node_body_result pw sp i data it_init ra us path pf Er Eu Hp Epw) in H.
  cbn [ob] in H. injection H as <-.
  exists ra, us, pf. split; [reflexivity|split; [reflexivity|split; [reflexivity|]]].
  cbn [it_contents]. destruct (Nat.eqb i 0); reflexivity.
Qed.

(* ================================================================== *)
(** * The claims *)

(** C9: rewriting the endpoint twice in a row, as the script does, gives
    the same string as rewriting it once: [s.replace("localhost",
    "arb-bridge-eth-geth")] is idempotent, for every [eth_url]. *)
Theorem eth_url_rewrite_idempotent (s : string) :
  py_replace (py_replace s "localhost" "arb-bridge-eth-geth")
    "localhost" "arb-bridge-eth-geth"
  = py_replace s "localhost" "arb-bridge-eth-geth".
Proof.
  unfold py_replace. rewrite list_ascii_of_string_of_list_ascii.
  change (list_ascii_of_string "localhost")
    with ("l"%char :: list_ascii_of_string "ocalhost").
  cbn [replace_list].
  rewrite replace_ne_idempotent; [reflexivity| reflexivity |].
  intros p Hp.
  do 8 (destruct p as [|p]; [split; reflexivity|]).
  cbn in Hp. lia.
Qed.

(** C10: the manifest the node loop renders is the concatenation, over the
    nodes 0..n-1, of one block per node, and node [i]'s block is what the
    loop body renders from node [i]'s own config, its index and the CLI
    password alone, from an empty accumulator ([extra_flags] is reset on
    every iteration). *)
Theorem node_flags_isolated pw sp n w it' w' :
  deploy_nodes pw sp (seq 0 n) it_init w = (Ok it', w') ->
  exists blocks,
    Forall2 (fun i b => exists path data,
               py_format sp [AInt (Z.of_nat i)] = Some path /\
               read_config w (config_path path) = Some data /\
               node_block pw sp i data = Ok b) (seq 0 n) blocks /\
    it_contents it' = fold_right String.append "" blocks.
Proof.
  destruct n as [|n]; intros H.
  - cbn in H. inversion H; subst. exists []. split; [constructor|reflexivity].
  - cbn [seq] in H.
    apply deploy_nodes_cons_ok in H as (path & data & it1 & Hp & Hd & Hb & Hr).
    destruct (deploy_nodes_blocks pw sp (seq 1 n) it1 w it' w') as (bs & Hf & Hc).
    + apply Forall_forall. intros i Hi. apply in_seq in Hi. lia.
    + exact Hr.
    + exists (it_contents it1 :: bs). split.
      * constructor; [|exact Hf]. exists path, data.
        unfold node_block. rewrite Hb. auto.
      * rewrite Hc. reflexivity.
Qed.

Lemma node_flags_isolated_witness :
  exists blocks,
    Forall2 (fun i b => exists path data,
               py_format SP [AInt (Z.of_nat i)] = Some path /\
               read_config W_gap (config_path path) = Some data /\
               node_block None SP i data = Ok b) (seq 0 3) blocks /\
    it_contents iter_gap = fold_right String.append "" blocks.
Proof.
  apply (node_flags_isolated None SP 3 W_gap iter_gap W_gap).
  vm_compute. reflexivity.
Defined.

(** The first conjunct of C1: a non-empty CLI password. *)
Lemma resolve_password_cli x data :
  x <> "" -> resolve_password (Some x) data "" = Ok (" -password=" ++ x).
Proof.
  intros Hx. unfold resolve_password, truthy.
  apply String.eqb_neq in Hx. rewrite Hx. reflexivity.
Qed.

Lemma resolve_password_config pw data y :
  truthy pw = false -> jlookup "password" data = Some (JStr y) ->
  resolve_password pw data "" = Ok (" -password=" ++ y).
Proof.
  intros Hpw Hy. unfold resolve_password, jhas, okey.
  rewrite Hpw, Hy. reflexivity.
Qed.

(** C1: password precedence.  For a node whose config has a
    [rollup_address] and a string [eth_url]: with a non-empty CLI password
    [x] the loop body succeeds and its flags are exactly [-password=x]
    (followed by the node's own [-blocktime] flag), whatever password field
    the config holds, so the config's password takes no part in the result;
    without a CLI password (absent or empty) and with a string [password]
    field [y] in the config, the flags are [-password=y] (followed by the
    [-blocktime] flag). *)
Theorem password_precedence sp i path data it ra us :
  jlookup "rollup_address" data = Some ra ->
  jlookup "eth_url" data = Some (JStr us) ->
  py_format sp [AInt (Z.of_nat i)] = Some path ->
  (forall x, x <> "" ->
     node_body (Some x) sp i data it =
     Ok (mkIter ((if Nat.eqb i 0 then "" else it_contents it)
                 ++ node_text i path (" -password=" ++ x ++ blocktime_flag i data)
                      (rewrite_eth_url us) ra)
                (Some ra) (" -password=" ++ x ++ blocktime_flag i data)
                (rewrite_eth_url us))) /\
  (forall pw y, truthy pw = false -> jlookup "password" data = Some (JStr y) ->
     node_body pw sp i data it =
     Ok (mkIter ((if Nat.eqb i 0 then "" else it_contents it)
                 ++ node_text i path (" -password=" ++ y ++ blocktime_flag i data)
                      (rewrite_eth_url us) ra)
                (Some ra) (" -password=" ++ y ++ blocktime_flag i data)
                (rewrite_eth_url us))).
Proof.
  intros Hra Hu Hp. split.
  - intros x Hx.
    rewrite (node_body_result (Some x) sp i data it ra us path (" -password=" ++ x));
      auto using resolve_password_cli.
  - intros pw y Hpw Hy.
    rewrite (node_body_result pw sp i data it ra us path (" -password=" ++ y));
      auto using resolve_password_config.
Qed.

Lemma password_precedence_witness :
  (forall x, x <> "" ->
     node_body (Some x) SP 1 (cfg_full "Y") it_init =
     Ok (mkIter ("" ++ node_text 1 "/w/rollups/r/validator1"
                        (" -password=" ++ x ++ blocktime_flag 1 (cfg_full "Y"))
                        (rewrite_eth_url "ws://localhost:1234") (JStr "0xabc"))
                (Some (JStr "0xabc"))
                (" -password=" ++ x ++ blocktime_flag 1 (cfg_full "Y"))
                (rewrite_eth_url "ws://localhost:1234"))) /\
  (forall pw y, truthy pw = false ->
     jlookup "password" (cfg_full "Y") = Some (JStr y) ->
     node_body pw SP 1 (cfg_full "Y") it_init =
     Ok (mkIter ("" ++ node_text 1 "/w/rollups/r/validator1"
                        (" -password=" ++ y ++ blocktime_flag 1 (cfg_full "Y"))
                        (rewrite_eth_url "ws://localhost:1234") (JStr "0xabc"))
                (Some (JStr "0xabc"))
                (" -password=" ++ y ++ blocktime_flag 1 (cfg_full "Y"))
                (rewrite_eth_url "ws://localhost:1234"))).
Proof.
  apply (password_precedence SP 1 "/w/rollups/r/validator1" (cfg_full "Y")
           it_init (JStr "0xabc") "ws://localhost:1234");
    reflexivity.
Defined.

(** C5: blocktime scoping.  For a node whose config has a [rollup_address],
    a string [eth_url] and a [blocktime] field [b], and whose password
    resolves to the flag [pf]: at index 0 the rendered flags are [pf] alone,
    no [-blocktime] flag; at every index [i >= 1] they are [pf] followed by
    [-blocktime=b], and the block rendered for the node carries these
    flags. *)
Theorem blocktime_scoping pw sp i path data it ra us pf b :
  jlookup "rollup_address" data = Some ra ->
  jlookup "eth_url" data = Some (JStr us) ->
  jlookup "blocktime" data = Some b ->
  py_format sp [AInt (Z.of_nat i)] = Some path ->
  resolve_password pw data "" = Ok pf ->
  exists it',
    node_body pw sp i data it = Ok it' /\
    (i = 0 -> it_extra_flags it' = pf) /\
    (1 <= i -> it_extra_flags it' = pf ++ " -blocktime=" ++ py_str b) /\
    it_contents it' = (if Nat.eqb i 0 then "" else it_contents it)
                      ++ node_text i path (it_extra_flags it')
                           (rewrite_eth_url us) ra.
Proof.
  intros Hra Hu Hb Hp Hpw.
  rewrite (node_body_result pw sp i data it ra us path pf Hra Hu Hp Hpw).
  eexists. split; [reflexivity|]. cbn [it_extra_flags it_contents].
  unfold blocktime_flag. rewrite Hb.
  split; [|split].
  - intros ->. apply append_empty_r.
  - intros Hi. destruct i as [|i]; [lia|reflexivity].
  - reflexivity.
Qed.

Lemma blocktime_scoping_witness :
  exists it',
    node_body None SP 1 (cfg_full "p") it_init = Ok it' /\
    (1 = 0 -> it_extra_flags it' = " -password=p") /\
    (1 <= 1 -> it_extra_flags it' = " -password=p" ++ " -blocktime=" ++ py_str (JInt 5)) /\
    it_contents it' = (if Nat.eqb 1 0 then "" else it_contents it_init)
                      ++ node_text 1 "/w/rollups/r/validator1" (it_extra_flags it')
                           (rewrite_eth_url "ws://localhost:1234") (JStr "0xabc").
Proof.
  apply (blocktime_scoping None SP 1 "/w/rollups/r/validator1" (cfg_full "p")
           it_init (JStr "0xabc") "ws://localhost:1234" " -password=p" (JInt 5));
    reflexivity.
Defined.

(** C6, as the spec states it: node 0's block sets its command to
    [state <flags> <endpoint> <rollup_address>].  With the flags
    [" -password=p"] the rendered aggregator block has no line starting
    [command: state]: the template writes the flags before [state]. *)
Lemma aggregator_command_order_cex :
  ~ (forall p f u a h, compose_header p f u a = Some h ->
       str_contains "command: state" h = true).
Proof.
  intros H.
  specialize (H "/w/rollups/r/validator0" " -password=p" "ws://arb-bridge-eth-geth:1234"
                (JStr "0xabc") _ (compose_header_text _ _ _ _)).
  vm_compute in H. discriminate H.
Qed.

(** C6 (amended): on a successful node loop over nodes [0..n-1], the
    rendered contents are the blocks of the nodes in order, and the block
    of node [i] is rendered from node [i]'s own state path
    [states_path % i], resolved flags, rewritten [eth_url] and
    [rollup_address]: for node 0 the aggregator header (entrypoint
    [arb-tx-aggregator], the state path mounted, the command
    [<flags> state <endpoint> <rollup_address>] and the two ports, as
    [header_text] spells out), for node [i >= 1] the service
    [arb-validator<i>] mounting its state path with the command
    [validate <flags> state <endpoint> <rollup_address>] ([validator_text]).
    The two texts are what [compose_header] and [compose_validator]
    produce, and the service names of nodes [1..n-1] are pairwise
    distinct. *)
Theorem rendered_command_shapes pw sp n w it' w' :
  deploy_nodes pw sp (seq 0 n) it_init w = (Ok it', w') ->
  (exists blocks,
     Forall2 (fun i b => exists path data ra us pf,
                py_format sp [AInt (Z.of_nat i)] = Some path /\
                read_config w (config_path path) = Some data /\
                jlookup "rollup_address" data = Some ra /\
                jlookup "eth_url" data = Some (JStr us) /\
                resolve_password pw data "" = Ok pf /\
                b = (if Nat.eqb i 0
                     then header_text path pf (rewrite_eth_url us) (py_str ra)
                     else validator_text i path (pf ++ blocktime_flag i data)
                            (rewrite_eth_url us) (py_str ra)))
       (seq 0 n) blocks /\
     it_contents it' = fold_right String.append "" blocks) /\
  (forall p f u a, compose_header p f u a = Some (header_text p f u (py_str a))) /\
  (forall i p f u a,
     compose_validator i p f u a = Some (validator_text i p f u (py_str a))) /\
  NoDup (map validator_service (seq 1 (n - 1))).
Proof.
  intros H. split; [|split; [|split]].
  - destruct (deploy_nodes_all_blocks pw sp n w it' w' H) as (bs & Hf & Hc).
    exists bs. split; [|exact Hc].
    eapply Forall2_impl; [|exact Hf].
    intros i b (path & data & Hp & Hd & Hb).
    destruct (node_block_shape pw sp i data b path Hp Hb) as (ra & us & pf & Hra & Hus & Hpf & ->).
    exists path, data, ra, us, pf. repeat split; try assumption.
    unfold node_text, blocktime_flag. destruct (Nat.eqb i 0); [|reflexivity].
    rewrite append_empty_r. reflexivity.
  - exact compose_header_text.
  - exact compose_validator_text.
  - apply NoDup_map_inj; [exact str_nat_service_inj|apply seq_NoDup].
Qed.

Lemma rendered_command_shapes_witness :
  (exists blocks,
     Forall2 (fun i b => exists path data ra us pf,
                py_format SP [AInt (Z.of_nat i)] = Some path /\
                read_config W_gap (config_path path) = Some data /\
                jlookup "rollup_address" data = Some ra /\
                jlookup "eth_url" data = Some (JStr us) /\
                resolve_password None data "" = Ok pf /\
                b = (if Nat.eqb i 0
                     then header_text path pf (rewrite_eth_url us) (py_str ra)
                     else validator_text i path (pf ++ blocktime_flag i data)
                            (rewrite_eth_url us) (py_str ra)))
       (seq 0 3) blocks /\
     it_contents iter_gap = fold_right String.append "" blocks) /\
  (forall p f u a, compose_header p f u a = Some (header_text p f u (py_str a))) /\
  (forall i p f u a,
     compose_validator i p f u a = Some (validator_text i p f u (py_str a))) /\
  NoDup (map validator_service (seq 1 (3 - 1))).
Proof.
  apply (rendered_command_shapes None SP 3 W_gap iter_gap W_gap).
  vm_compute. reflexivity.
Defined.

(** C3, as stated: discovery starts at index 0 and stops at the first
    missing index.  With validator1 and validator2 present and validator0
    missing, the first missing index is 0, yet discovery counts 3 nodes:
    index 0 is never probed. *)
Lemma discovery_index0_unchecked_cex :
  py_format SP [AInt 0] = Some (vdir 0) /\
  exists_in W_no0 (vdir 0) = false /\
  fst (discover (discover_fuel W_no0) SP 1 W_no0) = Ok 3.
Proof. split; [|split]; vm_compute; reflexivity. Qed.

(** C3 (amended): discovery takes index 0 for granted, probes the
    directories of indices 1, 2, ... and stops at the first missing one
    [n >= 1]; the nodes are then 0..n-1.  For directories 0, 1, 2 and a
    stray 4 it counts exactly 3 nodes, 0, 1 and 2. *)
Theorem discovery_first_gap_from_one sp w p0 :
  py_format sp [AInt 0] = Some p0 ->
  (exists n, fst (discover (discover_fuel w) sp 1 w) = Ok n /\ 1 <= n /\
     (forall k, 1 <= k < n ->
        exists p, py_format sp [AInt (Z.of_nat k)] = Some p /\ exists_in w p = true) /\
     (exists p, py_format sp [AInt (Z.of_nat n)] = Some p /\ exists_in w p = false)) /\
  fst (discover (discover_fuel W_gap) SP 1 W_gap) = Ok 3.
Proof.
  intros H0. split; [|vm_compute; reflexivity].
  destruct (discover_ok sp w (states_path_all sp p0 H0)) as (n & Hn).
  destruct (discover_spec (discover_fuel w) sp 1 w) as (_ & _ & Hok & _).
  destruct (Hok n Hn) as (H1 & H2 & H3).
  exists n. auto.
Qed.

Lemma discovery_first_gap_from_one_witness :
  (exists n, fst (discover (discover_fuel W_gap) SP 1 W_gap) = Ok n /\ 1 <= n /\
     (forall k, 1 <= k < n ->
        exists p, py_format SP [AInt (Z.of_nat k)] = Some p /\ exists_in W_gap p = true) /\
     (exists p, py_format SP [AInt (Z.of_nat n)] = Some p /\ exists_in W_gap p = false)) /\
  fst (discover (discover_fuel W_gap) SP 1 W_gap) = Ok 3.
Proof.
  apply (discovery_first_gap_from_one SP W_gap (vdir 0)). vm_compute. reflexivity.
Defined.

(** C4, as stated: with validator0 missing, discovery yields 0 nodes and
    the deployment completes.  With no validator directory at all,
    discovery yields 1 and [deploy] raises [FileNotFoundError] on
    validator0's config.json, leaving the manifest unwritten. *)
Lemma zero_nodes_cex :
  exists_in W_none (vdir 0) = false /\
  fst (discover (discover_fuel W_none) SP 1 W_none) = Ok 1 /\
  fst (deploy false false false "r" None W_none)
    = Raise (FileNotFoundError (config_path (vdir 0))) /\
  w_manifest (snd (deploy false false false "r" None W_none)) = None.
Proof. repeat split; vm_compute; reflexivity. Qed.

(** C4 (amended): if the directory of validator0 is missing, discovery
    still yields [n >= 1] nodes (index 0 is never probed) and [deploy]
    raises [FileNotFoundError] on validator0's config.json, before the
    manifest is written. *)
Theorem missing_validator0_fails sudo bld up rollup pw w p0 :
  configs_in_dirs w ->
  py_format (states_path (w_cwd w) rollup) [AInt 0] = Some p0 ->
  ~ In p0 (w_dirs w) ->
  (exists n, fst (discover (discover_fuel w) (states_path (w_cwd w) rollup) 1 w)
               = Ok n /\ 1 <= n) /\
  fst (deploy sudo bld up rollup pw w) = Raise (FileNotFoundError (config_path p0)) /\
  w_manifest (snd (deploy sudo bld up rollup pw w)) = w_manifest w.
Proof.
  intros Hcfg Hp0 Hno.
  set (sp := states_path (w_cwd w) rollup) in *.
  destruct (discover_ok sp w (states_path_all sp p0 Hp0)) as (n & Hn).
  pose proof (discover_spec (discover_fuel w) sp 1 w) as (_ & _ & Hok & _).
  pose proof (Hok n Hn) as (Hn1 & _).
  destruct (deploy_prefix sudo bld up rollup pw w) as (hev & _ & Hd).
  fold sp in Hd. rewrite Hd. clear Hd.
  destruct n as [|n']; [lia|].
  assert (Hl : load_json (config_path p0) (log_ext w hev)
               = (Raise (FileNotFoundError (config_path p0)), log_ext w hev)).
  { apply load_json_missing. cbn.
    destruct (existsb _ _) eqn:E; [|reflexivity].
    exfalso. apply Hno, Hcfg. exact E. }
  rewrite (bind_ok _ _ _ _ _ (discover_after_halt sp w hev (S n') Hn)).
  cbn [seq]. rewrite (bind_raise _ _ _ _ _ (deploy_nodes_load_fail pw sp 0 (seq 1 n') it_init _ _ _ Hp0 Hl)).
  split; [eauto|split; reflexivity].
Qed.

Lemma missing_validator0_fails_witness :
  (exists n, fst (discover (discover_fuel W_none) SP 1 W_none) = Ok n /\ 1 <= n) /\
  fst (deploy false false false "r" None W_none)
    = Raise (FileNotFoundError (config_path (vdir 0))) /\
  w_manifest (snd (deploy false false false "r" None W_none)) = w_manifest W_none.
Proof.
  apply (missing_validator0_fails false false false "r" None W_none (vdir 0)).
  - intros d Hd. vm_compute in Hd. discriminate Hd.
  - vm_compute. reflexivity.
  - intros H. vm_compute in H. exact H.
Defined.

(** C8, as stated: both flags are rejected before any side effect.  The
    script runs [./scripts/create-network] before it parses its
    arguments, so that external command has run when argparse rejects
    [--build --up] with status 2. *)
Lemma both_flags_side_effect_cex :
  exit_status (fst (main argv_both W_gap)) = Some 2%Z /\
  In (ERun "./scripts/create-network" false false false)
     (w_log (snd (main argv_both W_gap))).
Proof. split; vm_compute; [reflexivity|left; reflexivity]. Qed.

(** C8 (amended): with both [--build] and [--up], the only effects are the
    [./scripts/create-network] command and argparse's error line; the run
    exits with status 2 before any teardown, discovery, manifest write,
    build or [up]. *)
Theorem both_flags_rejected a w :
  av_build a = true -> av_up a = true ->
  main a w =
    (Exit 2%Z,
     log_ext w [ERun "./scripts/create-network" false false false;
                EOutput "arb-deploy: error: argument --up: not allowed with argument --build"]).
Proof.
  intros Hb Hu. unfold main, parse_args, run, bind, emit, get, ret, py_exit.
  rewrite Hb, Hu. cbn. unfold log_ext. rewrite <- app_assoc. reflexivity.
Qed.

Lemma both_flags_rejected_witness :
  main argv_both W_gap =
    (Exit 2%Z,
     log_ext W_gap [ERun "./scripts/create-network" false false false;
                    EOutput "arb-deploy: error: argument --up: not allowed with argument --build"]).
Proof. apply both_flags_rejected; reflexivity. Defined.

(** C7, as stated: a failing build exits with the build's own status.
    The script calls [exit(1)] whatever non-zero status the build
    reports: a build status of 2 gives exit status 1. *)
Lemma build_status_cex :
  w_build_status W_build2 = 2%Z /\
  exit_status (fst (main (mkArgv (Some "r") None false false false) W_build2))
    = Some 1%Z.
Proof. split; vm_compute; reflexivity. Qed.

(** C7 (amended): whenever [deploy] runs the build step and the build
    reports a non-zero status, [deploy] stops with [exit(1)] right after
    it: the log ends with the manifest write and the build, and no
    [up] command (nor any other) follows. *)
Theorem build_failure_exits_1 sudo bld up rollup pw w o w' :
  deploy sudo bld up rollup pw w = (o, w') ->
  w_build_status w <> 0%Z ->
  (exists ev, w_log w' = (w_log w ++ ev)%list /\ In (EBuild sudo) ev) ->
  o = Exit 1%Z /\
  exists hev c, Forall (halt_event sudo) hev /\
    w_log w' = (w_log w ++ hev ++ [EWrite (compose_path (w_cwd w)) c; EBuild sudo])%list.
Proof.
  intros Hd Hs (ev & Hlog & Hin).
  destruct (deploy_prefix sudo bld up rollup pw w) as (hev & Hhev & Hp).
  rewrite Hp in Hd. clear Hp.
  set (sp := states_path (w_cwd w) rollup) in *.
  assert (Hnb : ~ In (EBuild sudo) hev).
  { intros Hi. rewrite Forall_forall in Hhev. destruct (Hhev _ Hi) as (? & ? & ?).
    discriminate. }
  unfold bind at 1 in Hd.
  destruct (discover (discover_fuel w) sp 1 (log_ext w hev)) as [o1 w1] eqn:E1.
  pose proof (discover_world (discover_fuel w) sp 1 (log_ext w hev)) as Ew1.
  rewrite E1 in Ew1. cbn in Ew1. subst w1.
  destruct o1 as [n| | |];
    try (inversion Hd; subst; cbn in Hlog; apply app_inv_head in Hlog; subst; tauto).
  unfold bind at 1 in Hd.
  destruct (deploy_nodes pw sp (seq 0 n) it_init (log_ext w hev)) as [o2 w2] eqn:E2.
  apply deploy_nodes_world in E2 as Ew2. subst w2.
  destruct o2 as [it| | |];
    try (inversion Hd; subst; cbn in Hlog; apply app_inv_head in Hlog; subst; tauto).
  destruct (negb up || bld) eqn:Eb.
  - unfold bind, write_manifest, build_validator, emit, get, ret, py_exit in Hd.
    cbn in Hd. rewrite (proj2 (Z.eqb_neq _ _) Hs) in Hd.
    inversion Hd; subst. split; [reflexivity|].
    exists hev, (it_contents it). split; [exact Hhev|].
    cbn. rewrite <- !app_assoc. reflexivity.
  - exfalso.
    unfold bind, write_manifest, emit, get, ret, raise, fmt, run in Hd.
    destruct (negb bld || up); [destruct (it_rollup_address it)|];
      cbn in Hd; inversion Hd; subst; cbn in Hlog; rewrite <- ?app_assoc in Hlog;
      apply app_inv_head in Hlog; subst ev;
      rewrite ?in_app_iff in Hin; cbn in Hin; intuition discriminate.
Qed.

Lemma build_failure_exits_1_witness :
  fst (deploy false false false "r" None W_build2) = Exit 1%Z /\
  exists hev c, Forall (halt_event false) hev /\
    w_log (snd (deploy false false false "r" None W_build2)) =
    (w_log W_build2 ++ hev ++ [EWrite (compose_path (w_cwd W_build2)) c; EBuild false])%list.
Proof.
  apply (build_failure_exits_1 false false false "r" None W_build2 _ _ (surjective_pairing _)).
  - vm_compute. discriminate.
  - exists (w_log (snd (deploy false false false "r" None W_build2))). split.
    + vm_compute. reflexivity.
    + vm_compute. repeat (first [left; reflexivity | right]).
Defined.

(** C2, as stated: with no password on the command line, a scanned node
    whose config.json lacks [password] makes [deploy] fail with the
    missing-password error.  A node whose config.json is the empty object
    fails earlier, on [data["rollup_address"]], with a [KeyError]. *)
Lemma password_error_masked_cex :
  read_config W_emptycfg (config_path (vdir 0)) = Some [] /\
  jhas "password" [] = false /\
  fst (deploy false false false "r" None W_emptycfg)
    = Raise (KeyError "rollup_address").
Proof. repeat split; vm_compute; reflexivity. Qed.

(** C2 (amended): with no (or an empty) password on the command line and
    a discovered node [j] whose config.json lacks [password], [deploy]
    raises after the teardown and before anything else: the manifest is
    neither written nor modified and the log holds only the teardown's
    commands.  The exception is the missing-password one when the nodes
    before [j] resolve and node [j]'s config has [rollup_address] and a
    string [eth_url]. *)
Theorem password_failure_atomic sudo bld up rollup pw w n j pj data :
  truthy pw = false ->
  fst (discover (discover_fuel w) (states_path (w_cwd w) rollup) 1 w) = Ok n ->
  j < n ->
  py_format (states_path (w_cwd w) rollup) [AInt (Z.of_nat j)] = Some pj ->
  read_config w (config_path pj) = Some data ->
  jhas "password" data = false ->
  exists e hev,
    deploy sudo bld up rollup pw w = (Raise e, log_ext w hev) /\
    Forall (halt_event sudo) hev /\
    w_manifest (snd (deploy sudo bld up rollup pw w)) = w_manifest w /\
    ((exists it0 ra us,
        fst (deploy_nodes pw (states_path (w_cwd w) rollup) (seq 0 j) it_init w)
          = Ok it0 /\
        jlookup "rollup_address" data = Some ra /\
        jlookup "eth_url" data = Some (JStr us)) ->
     e = Exception PASSWORD_MSG).
Proof.
  intros Ht Hn Hj Hpj Hrd Hh.
  set (sp := states_path (w_cwd w) rollup) in *.
  destruct (deploy_prefix sudo bld up rollup pw w) as (hev & Hhev & Hd).
  fold sp in Hd.
  destruct (deploy_nodes_absent pw sp (seq 0 n) it_init (log_ext w hev) j pj data Ht)
    as (e & He); [apply in_seq; lia|exact Hpj|exact Hrd|exact Hh|].
  assert (Hdep : deploy sudo bld up rollup pw w = (Raise e, log_ext w hev)).
  { rewrite Hd. rewrite (bind_ok _ _ _ _ _ (discover_after_halt sp w hev n Hn)).
    apply bind_raise. exact He. }
  exists e, hev. rewrite Hdep.
  split; [reflexivity|]. split; [exact Hhev|]. split; [reflexivity|].
  intros (it0 & ra & us & Hit0 & Hra & Hus).
  assert (Hseq : seq 0 n = (seq 0 j ++ j :: seq (S j) (n - S j))%list).
  { replace n with (j + S (n - S j)) at 1 by lia. rewrite seq_app. reflexivity. }
  rewrite Hseq, deploy_nodes_app in He.
  assert (Hpre : deploy_nodes pw sp (seq 0 j) it_init (log_ext w hev)
                 = (Ok it0, log_ext w hev)).
  { destruct (deploy_nodes pw sp (seq 0 j) it_init (log_ext w hev)) as [o' w'] eqn:E.
    pose proof (deploy_nodes_world _ _ _ _ _ _ _ E). subst w'.
    rewrite <- (deploy_nodes_same_fs pw sp (seq 0 j) it_init (log_ext w hev) w)
      in Hit0 by reflexivity.
    rewrite E in Hit0. cbn in Hit0. subst. reflexivity. }
  rewrite (bind_ok _ _ _ _ _ Hpre) in He.
  cbn [deploy_nodes] in He.
  rewrite (bind_ok _ _ _ pj (log_ext w hev)) in He
    by (unfold fmt; rewrite Hpj; reflexivity).
  rewrite (bind_ok _ _ _ data (log_ext w hev)) in He
    by (apply load_json_of_read; exact Hrd).
  destruct (node_body_absent pw sp j data it0 Ht Hh) as (e' & He' & Hmsg).
  unfold bind, lift in He. rewrite He' in He. injection He as <-.
  exact (Hmsg ra us Hra Hus).
Qed.

Lemma password_failure_atomic_witness :
  exists e hev,
    deploy false false false "r" None W_nopw = (Raise e, log_ext W_nopw hev) /\
    Forall (halt_event false) hev /\
    w_manifest (snd (deploy false false false "r" None W_nopw)) = w_manifest W_nopw /\
    ((exists it0 ra us,
        fst (deploy_nodes None (states_path (w_cwd W_nopw) "r") (seq 0 1) it_init W_nopw)
          = Ok it0 /\
        jlookup "rollup_address" cfg_nopw = Some ra /\
        jlookup "eth_url" cfg_nopw = Some (JStr us)) ->
     e = Exception PASSWORD_MSG).
Proof.
  apply (password_failure_atomic false false false "r" None W_nopw 2 1 (vdir 1) cfg_nopw).
  - reflexivity.
  - vm_compute. reflexivity.
  - lia.
  - vm_compute. reflexivity.
  - vm_compute. reflexivity.
  - vm_compute. reflexivity.
Defined.

(* ================================================================== *)
(** * Further properties of the script *)

(** A successful [deploy]: after the teardown it writes docker-compose.yml
    with the rendered nodes, runs the build when [--up] is absent or
    [--build] is given, then, when [--build] is absent or [--up] is given,
    prints the node count with the rollup address of the LAST node and
    runs [docker-compose -f <compose> up].  The result and the file
    system are otherwise unchanged. *)
Theorem deploy_success sudo bld up rollup pw w n it :
  fst (discover (discover_fuel w) (states_path (w_cwd w) rollup) 1 w) = Ok n ->
  fst (deploy_nodes pw (states_path (w_cwd w) rollup) (seq 0 n) it_init w) = Ok it ->
  (negb up || bld = true -> w_build_status w = 0%Z) ->
  exists hev pl data ra,
    Forall (halt_event sudo) hev /\
    py_format (states_path (w_cwd w) rollup) [AInt (Z.of_nat (n - 1))] = Some pl /\
    read_config w (config_path pl) = Some data /\
    jlookup "rollup_address" data = Some ra /\
    deploy sudo bld up rollup pw w =
      (Ok tt,
       mkWorld (w_cwd w) (w_dirs w) (w_files w) (Some (it_contents it))
         (w_stdout w) (w_build_status w)
         (w_log w ++ hev ++ EWrite (compose_path (w_cwd w)) (it_contents it) ::
          (if negb up || bld then [EBuild sudo] else []) ++
          (if negb bld || up then
             [EOutput ("Deploying " ++ str_nat n ++ " validators for rollup "
                       ++ py_str ra);
              ERun ("docker-compose -f " ++ compose_path (w_cwd w) ++ " up")
                sudo false false]
           else []))%list).
Proof.
  intros Hn Hit Hbs.
  set (sp := states_path (w_cwd w) rollup) in *.
  pose proof (discover_spec (discover_fuel w) sp 1 w) as (_ & _ & Hok & _).
  destruct (Hok n Hn) as (Hn1 & _).
  destruct n as [|m]; [lia|].
  assert (Hloop : deploy_nodes pw sp (seq 0 m ++ [m]) it_init w = (Ok it, w)).
  { replace (seq 0 m ++ [m])%list with (seq 0 (S m)) by (rewrite seq_S; reflexivity).
    rewrite (surjective_pairing (deploy_nodes _ _ _ _ _)), Hit.
    destruct (deploy_nodes pw sp (seq 0 (S m)) it_init w) as [o w'] eqn:E.
    apply deploy_nodes_world in E. subst. reflexivity. }
  destruct (deploy_nodes_last _ _ _ _ _ _ _ _ Hloop) as (pl & data & ra & Hpl & Hrd & Hra & Hira).
  destruct (deploy_prefix sudo bld up rollup pw w) as (hev & Hhev & Hd).
  fold sp in Hd.
  exists hev, pl, data, ra.
  replace (S m - 1) with m by lia.
  split; [exact Hhev|]. split; [exact Hpl|]. split; [exact Hrd|]. split; [exact Hra|].
  rewrite Hd, (bind_ok _ _ _ _ _ (discover_after_halt sp w hev (S m) Hn)).
  rewrite (bind_ok _ _ _ it (log_ext w hev))
    by (rewrite deploy_nodes_after_halt, Hit; reflexivity).
  unfold bind, write_manifest, build_validator, emit, get, ret, py_exit, fmt, run.
  rewrite Hira.
  destruct (negb up || bld) eqn:Eb.
  - cbn. rewrite (Hbs eq_refl). cbn.
    destruct (negb bld || up); cbn; rewrite <- ?app_assoc; reflexivity.
  - cbn. destruct (negb bld || up); cbn; rewrite <- ?app_assoc; reflexivity.
Qed.

Lemma deploy_success_witness :
  exists hev pl data ra,
    Forall (halt_event false) hev /\
    py_format (states_path (w_cwd W_gap) "r") [AInt (Z.of_nat (3 - 1))] = Some pl /\
    read_config W_gap (config_path pl) = Some data /\
    jlookup "rollup_address" data = Some ra /\
    deploy false false false "r" None W_gap =
      (Ok tt,
       mkWorld (w_cwd W_gap) (w_dirs W_gap) (w_files W_gap) (Some (it_contents iter_gap))
         (w_stdout W_gap) (w_build_status W_gap)
         (w_log W_gap ++ hev ++ EWrite (compose_path (w_cwd W_gap)) (it_contents iter_gap) ::
          (if negb false || false then [EBuild false] else []) ++
          (if negb false || false then
             [EOutput ("Deploying " ++ str_nat 3 ++ " validators for rollup "
                       ++ py_str ra);
              ERun ("docker-compose -f " ++ compose_path (w_cwd W_gap) ++ " up")
                false false false]
           else []))%list).
Proof.
  apply (deploy_success false false false "r" None W_gap 3 iter_gap).
  - vm_compute. reflexivity.
  - vm_compute. reflexivity.
  - intros _. reflexivity.
Defined.

(** Any error of the node loop (missing or malformed config.json, missing
    key, wrong value type, no password) is the error of [deploy]: it is
    raised right after the teardown, before docker-compose.yml is written,
    and before any build or [up]. *)
Theorem deploy_loop_error_atomic sudo bld up rollup pw w n e :
  fst (discover (discover_fuel w) (states_path (w_cwd w) rollup) 1 w) = Ok n ->
  fst (deploy_nodes pw (states_path (w_cwd w) rollup) (seq 0 n) it_init w) = Raise e ->
  exists hev, Forall (halt_event sudo) hev /\
    deploy sudo bld up rollup pw w = (Raise e, log_ext w hev).
Proof.
  intros Hn He.
  set (sp := states_path (w_cwd w) rollup) in *.
  destruct (deploy_prefix sudo bld up rollup pw w) as (hev & Hhev & Hd).
  fold sp in Hd. exists hev. split; [exact Hhev|].
  rewrite Hd, (bind_ok _ _ _ _ _ (discover_after_halt sp w hev n Hn)).
  apply bind_raise. rewrite deploy_nodes_after_halt, He. reflexivity.
Qed.

Lemma deploy_loop_error_atomic_witness :
  exists hev, Forall (halt_event true) hev /\
    deploy true false false "r" None W_emptycfg
      = (Raise (KeyError "rollup_address"), log_ext W_emptycfg hev).
Proof.
  apply (deploy_loop_error_atomic true false false "r" None W_emptycfg 1).
  - vm_compute. reflexivity.
  - vm_compute. reflexivity.
Defined.

(** An empty [--password ""] is falsy in Python: [deploy] behaves exactly
    as without [--password]. *)
Theorem deploy_empty_password_as_absent sudo bld up rollup w :
  deploy sudo bld up rollup (Some "") w = deploy sudo bld up rollup None w.
Proof.
  unfold deploy.
  apply bind_ext; [reflexivity|intros [] w1].
  apply bind_ext; [reflexivity|intros w0 w2]. cbv beta zeta.
  apply bind_ext; [reflexivity|intros n w3].
  apply bind_ext; [apply deploy_nodes_empty_pw|intros it w4].
  reflexivity.
Qed.

(** The eth_url rewrite leaves no ["localhost"] in the URL, and leaves a
    URL without ["localhost"] unchanged. *)
Theorem eth_url_rewrite_no_localhost us :
  str_contains "localhost" (rewrite_eth_url us) = false /\
  (str_contains "localhost" us = false -> rewrite_eth_url us = us).
Proof.
  unfold rewrite_eth_url, str_contains. rewrite !py_replace_localhost.
  change (list_ascii_of_string "localhost")
    with ("l"%char :: list_ascii_of_string "ocalhost").
  split.
  - rewrite !list_ascii_of_string_of_list_ascii.
    rewrite (replace_ne_no_occ_id "l"%char _ _ _
               (localhost_replace_no_occ _)).
    apply contains_list_no_occ.
    exact (localhost_replace_no_occ _).
  - intros H. apply contains_list_no_occ in H.
    rewrite (replace_ne_no_occ_id "l"%char _ _ _ H).
    rewrite string_of_list_ascii_of_string.
    rewrite (replace_ne_no_occ_id "l"%char _ _ _ H).
    apply string_of_list_ascii_of_string.
Qed.

Lemma eth_url_rewrite_no_localhost_witness :
  str_contains "localhost" (rewrite_eth_url "ws://localhost:7546") = false /\
  rewrite_eth_url "ws://geth:7546" = "ws://geth:7546".
Proof.
  split.
  - exact (proj1 (eth_url_rewrite_no_localhost "ws://localhost:7546")).
  - apply (proj2 (eth_url_rewrite_no_localhost "ws://geth:7546")). vm_compute. reflexivity.
Defined.

